(** * Prayer-time lookup and zawal-time derivation of [app.py]

    A shallow embedding of the two helper functions of [app.py] that carry a
    contract, [get_prayer_times] and [get_zawal_time], together with the
    pieces of the Python runtime they call: [dict.get], dictionary
    subscription, [datetime.strptime] for the format ["%I:%M %p"],
    subtraction of a [timedelta] and [strftime] for the same format.

    Conventions.
    - A Python [str] is a sequence of Unicode code points: [pystr] is
      [list N].  Literals are written as Rocq strings holding the UTF-8
      bytes of the source file and decoded by [py].
    - A Python [dict] literal is an association list in insertion order.
    - A call that may raise returns a [result]; [try]/[except] is
      [try_except].
    - The interpreter runs in the C locale for [LC_TIME] (the program never
      calls [setlocale]), so the meridiem names are [AM] and [PM].
    - The classes [\d] and [\s] of the regular-expression engine are those
      of Unicode 14.0.0, the tables of CPython 3.11.  The proofs use of
      them only that a digit has a value from 0 to 9, that the ASCII digits
      are digits, and that no white-space character is a digit or a
      letter. *)

From Stdlib Require Import NArith ZArith List String Ascii Bool Lia.
Import ListNotations.

Local Open Scope N_scope.

(** ** Python strings *)

Module PyStr.

(** A code point. *)
Definition char := N.

(** A [str]: the sequence of its code points. *)
Definition pystr := list char.

(** Decoding of UTF-8, the encoding of the source file.  The literals of
    [app.py] are well formed, so the malformed cases are never reached;
    they stop the decoding. *)
Fixpoint utf8_decode (bs : list N) : pystr :=
  match bs with
  | [] => []
  | b0 :: r0 =>
      if b0 <? 0x80 then b0 :: utf8_decode r0
      else if b0 <? 0xE0 then
        match r0 with
        | b1 :: r1 => ((b0 mod 0x20) * 0x40 + b1 mod 0x40) :: utf8_decode r1
        | _ => []
        end
      else if b0 <? 0xF0 then
        match r0 with
        | b1 :: b2 :: r2 =>
            ((b0 mod 0x10) * 0x1000 + (b1 mod 0x40) * 0x40 + b2 mod 0x40)
              :: utf8_decode r2
        | _ => []
        end
      else
        match r0 with
        | b1 :: b2 :: b3 :: r3 =>
            ((b0 mod 0x8) * 0x40000 + (b1 mod 0x40) * 0x1000
             + (b2 mod 0x40) * 0x40 + b3 mod 0x40) :: utf8_decode r3
        | _ => []
        end
  end.

(** A string literal of the source. *)
Definition py (s : string) : pystr :=
  utf8_decode (map N_of_ascii (list_ascii_of_string s)).

(** A one-character literal. *)
Definition ch (a : ascii) : char := N_of_ascii a.

(** [lo <= c <= hi], the character class [[lo-hi]]. *)
Definition in_range (c lo hi : char) : bool := (lo <=? c) && (c <=? hi).

(** [s == t] on strings. *)
Fixpoint eqb (s t : pystr) : bool :=
  match s, t with
  | [], [] => true
  | a :: s', b :: t' => (a =? b) && eqb s' t'
  | _, _ => false
  end.

End PyStr.
Import PyStr.

(** ** Exceptions *)

(** The exception classes that the modelled calls can raise; all of them
    derive from [Exception]. *)
Inductive exn : Type :=
| ValueError
| KeyError
| OverflowError.

(** The outcome of evaluating an expression: a value, or a raised
    exception. *)
Inductive result (A : Type) : Type :=
| Ok (a : A)
| Raise (e : exn).

Arguments Ok {A} a.
Arguments Raise {A} e.

Definition bind {A B : Type} (r : result A) (k : A -> result B) : result B :=
  match r with
  | Ok a => k a
  | Raise e => Raise e
  end.

Notation "x <- r ;; k" := (bind r (fun x => k))
  (at level 61, r at next level, right associativity).

(** [try: body / except Exception as e: handler e]. *)
Definition try_except {A : Type} (body : result A) (handler : exn -> result A)
  : result A :=
  match body with
  | Ok a => Ok a
  | Raise e => handler e
  end.

(** ** Dictionaries *)

Module Dict.

(** A [dict] with [str] keys, as the list of its items in insertion
    order. *)
Definition dict (V : Type) := list (pystr * V).

Fixpoint lookup {V : Type} (d : dict V) (k : pystr) : option V :=
  match d with
  | [] => None
  | (k', v) :: d' => if PyStr.eqb k' k then Some v else lookup d' k
  end.

(** [d.get(k, default)]. *)
Definition get {V : Type} (d : dict V) (k : pystr) (default : V) : V :=
  match lookup d k with
  | Some v => v
  | None => default
  end.

(** [d[k]], which raises [KeyError] on a missing key. *)
Definition getitem {V : Type} (d : dict V) (k : pystr) : result V :=
  match lookup d k with
  | Some v => Ok v
  | None => Raise KeyError
  end.

(** [list(d.keys())]. *)
Definition keys {V : Type} (d : dict V) : list pystr := map fst d.

(** [list(d.values())]. *)
Definition values {V : Type} (d : dict V) : list V := map snd d.

End Dict.

(** ** The catalog of [get_prayer_times] *)

(** The prayer times of one city: prayer name to time string. *)
Definition PrayerTimeSet := Dict.dict pystr.

(** The literal [prayer_times_data]. *)
Definition prayer_times_data : Dict.dict PrayerTimeSet :=
  [ (py "Karachi",
      [ (py "فجر", py "05:15 AM");
        (py "طلوع آفتاب", py "06:45 AM");
        (py "ظہر", py "12:30 PM");
        (py "عصر", py "04:00 PM");
        (py "مغرب", py "06:45 PM");
        (py "عشاء", py "08:15 PM") ]);
    (py "Lahore",
      [ (py "فجر", py "04:45 AM");
        (py "طلوع آفتاب", py "06:15 AM");
        (py "ظہر", py "12:15 PM");
        (py "عصر", py "03:45 PM");
        (py "مغرب", py "06:30 PM");
        (py "عشاء", py "08:00 PM") ]);
    (py "Islamabad",
      [ (py "فجر", py "04:30 AM");
        (py "طلوع آفتاب", py "06:00 AM");
        (py "ظہر", py "12:10 PM");
        (py "عصر", py "03:40 PM");
        (py "مغرب", py "06:25 PM");
        (py "عشاء", py "07:55 PM") ]);
    (py "Peshawar",
      [ (py "فجر", py "04:35 AM");
        (py "طلوع آفتاب", py "06:05 AM");
        (py "ظہر", py "12:20 PM");
        (py "عصر", py "03:50 PM");
        (py "مغرب", py "06:35 PM");
        (py "عشاء", py "08:05 PM") ]);
    (py "Quetta",
      [ (py "فجر", py "05:00 AM");
        (py "طلوع آفتاب", py "06:30 AM");
        (py "ظہر", py "12:40 PM");
        (py "عصر", py "04:10 PM");
        (py "مغرب", py "07:00 PM");
        (py "عشاء", py "08:30 PM") ]) ].

(** The parameter list [(city="Karachi")]: an omitted argument is bound to
    the default. *)
Definition bind_city (arg : option pystr) : pystr :=
  match arg with
  | Some city => city
  | None => py "Karachi"
  end.

(** [get_prayer_times].  Both arguments of [.get] are evaluated before the
    call, so the subscription [prayer_times_data["Karachi"]] comes first. *)
Definition get_prayer_times (arg : option pystr) : result PrayerTimeSet :=
  let city := bind_city arg in
  default <- Dict.getitem prayer_times_data (py "Karachi") ;;
  Ok (Dict.get prayer_times_data city default).

(** ** Character classes of the regular-expression engine *)

Module Unicode.

(** The code points of the digit zero of every block of decimal digits
    (general category [Nd]) of Unicode 14.0.0; each block holds the ten
    digits in order. *)
Definition Nd_zeros : list char :=
  [ 0x30; 0x660; 0x6F0; 0x7C0; 0x966; 0x9E6; 0xA66; 0xAE6; 0xB66; 0xBE6;
    0xC66; 0xCE6; 0xD66; 0xDE6; 0xE50; 0xED0; 0xF20; 0x1040; 0x1090;
    0x17E0; 0x1810; 0x1946; 0x19D0; 0x1A80; 0x1A90; 0x1B50; 0x1BB0;
    0x1C40; 0x1C50; 0xA620; 0xA8D0; 0xA900; 0xA9D0; 0xA9F0; 0xAA50;
    0xABF0; 0xFF10; 0x104A0; 0x10D30; 0x11066; 0x110F0; 0x11136; 0x111D0;
    0x112F0; 0x11450; 0x114D0; 0x11650; 0x116C0; 0x11730; 0x118E0;
    0x11950; 0x11C50; 0x11D50; 0x11DA0; 0x16A60; 0x16AC0; 0x16B50;
    0x1D7CE; 0x1D7D8; 0x1D7E2; 0x1D7EC; 0x1D7F6; 0x1E140; 0x1E2F0;
    0x1E950; 0x1FBF0 ].

(** The zero of the block of decimal digits that holds [c], if any. *)
Definition decimal_block (c : char) : option char :=
  find (fun z => (z <=? c) && (c <? z + 10)) Nd_zeros.

(** The class [\d] of a [str] pattern: any decimal digit. *)
Definition is_decimal (c : char) : bool :=
  match decimal_block c with
  | Some _ => true
  | None => false
  end.

(** The value of a decimal digit, as [int] reads it. *)
Definition decimal_value (c : char) : Z :=
  match decimal_block c with
  | Some z => Z.of_N (c - z)
  | None => 0%Z
  end.

(** The class [\s] of a [str] pattern: [str.isspace]. *)
Definition is_space (c : char) : bool :=
  in_range c 0x9 0xD || in_range c 0x1C 0x20 || (c =? 0x85) || (c =? 0xA0)
  || (c =? 0x1680) || in_range c 0x2000 0x200A || (c =? 0x2028)
  || (c =? 0x2029) || (c =? 0x202F) || (c =? 0x205F) || (c =? 0x3000).

(** A lower-case ASCII letter [l] of a pattern compiled with
    [IGNORECASE].  For the letters [a], [m] and [p] of the meridiem names
    the code points that match are the letter and its capital. *)
Definition ignore_case (l c : char) : bool := (c =? l) || (c =? l - 32).

(** [str.lower] on one character, for the ASCII letters and the
    characters without case that the meridiem group can hold. *)
Definition lower_char (c : char) : char :=
  if in_range c (ch "A") (ch "Z") then c + 32 else c.

Definition lower (s : pystr) : pystr := map lower_char s.

(** [int(s)] for a string of decimal digits, the only strings that the
    groups [I] and [M] hold. *)
Definition int (s : pystr) : Z :=
  fold_left (fun acc c => (10 * acc + decimal_value c)%Z) s 0%Z.

End Unicode.

(** ** [datetime] *)

Module Datetime.

(** A [datetime] whose second and microsecond are zero and that has no
    time zone: the date as its proleptic Gregorian ordinal
    ([toordinal()]), the hour and the minute. *)
Record datetime : Type := mk_datetime {
  ordinal : Z;
  hour : Z;
  minute : Z
}.

(** [_MAXORDINAL], the ordinal of 9999-12-31. *)
Definition MAXORDINAL : Z := 3652059.

(** [_days_before_year]. *)
Definition days_before_year (year : Z) : Z :=
  let y := (year - 1)%Z in
  (y * 365 + y / 4 - y / 100 + y / 400)%Z.

(** [date(year, 1, 1).toordinal()]. *)
Definition ordinal_of_january_1 (year : Z) : Z :=
  (days_before_year year + 1)%Z.

(** The constructor [datetime(year, 1, 1, hour, minute)], which checks
    the fields of the time. *)
Definition new (year h m : Z) : result datetime :=
  if ((0 <=? h) && (h <=? 23) && (0 <=? m) && (m <=? 59))%Z
  then Ok (mk_datetime (ordinal_of_january_1 year) h m)
  else Raise ValueError.

(** [dt - timedelta(minutes=k)]: the difference is normalised into days
    and a time of day, and a date outside of [1 .. _MAXORDINAL] raises
    [OverflowError]. *)
Definition sub_minutes (dt : datetime) (k : Z) : result datetime :=
  let total := (ordinal dt * 1440 + hour dt * 60 + minute dt - k)%Z in
  let days := (total / 1440)%Z in
  let rest := (total mod 1440)%Z in
  if ((0 <? days) && (days <=? MAXORDINAL))%Z
  then Ok (mk_datetime days (rest / 60) (rest mod 60))
  else Raise OverflowError.

(** A number below 100 on two digits, padded with a zero. *)
Definition two_digits (n : Z) : pystr :=
  [ ch "0" + Z.to_N (n / 10); ch "0" + Z.to_N (n mod 10) ].

(** [%I]: the hour on the 12-hour clock. *)
Definition hour12 (h : Z) : Z :=
  if (h mod 12 =? 0)%Z then 12%Z else (h mod 12)%Z.

(** [%p] in the C locale. *)
Definition am_pm (h : Z) : pystr :=
  if (h <? 12)%Z then py "AM" else py "PM".

(** [dt.strftime("%I:%M %p")]. *)
Definition strftime (dt : datetime) : pystr :=
  two_digits (hour12 (hour dt)) ++ py ":" ++ two_digits (minute dt)
    ++ py " " ++ am_pm (hour dt).

End Datetime.

(** ** [datetime.strptime(_, "%I:%M %p")] *)

Module Strptime.
Import Unicode.

(** The ways a sub-pattern matches at the head of the subject, in the
    order the backtracking engine tries them: the text matched and what
    follows it. *)
Definition matches := list (pystr * pystr).

(** [%I], the group [(?P<I>1[0-2]|0[1-9]|[1-9])]. *)
Definition re_I (s : pystr) : matches :=
  match s with
  | a :: b :: r =>
      if (a =? ch "1") && in_range b (ch "0") (ch "2")
      then [([a; b], r)] else []
  | _ => []
  end
  ++
  match s with
  | a :: b :: r =>
      if (a =? ch "0") && in_range b (ch "1") (ch "9")
      then [([a; b], r)] else []
  | _ => []
  end
  ++
  match s with
  | a :: r => if in_range a (ch "1") (ch "9") then [([a], r)] else []
  | [] => []
  end.

(** [%M], the group [(?P<M>[0-5]\d|\d)]. *)
Definition re_M (s : pystr) : matches :=
  match s with
  | a :: b :: r =>
      if in_range a (ch "0") (ch "5") && is_decimal b
      then [([a; b], r)] else []
  | _ => []
  end
  ++
  match s with
  | a :: r => if is_decimal a then [([a], r)] else []
  | [] => []
  end.

(** The literal [:]. *)
Definition re_colon (s : pystr) : list pystr :=
  match s with
  | c :: r => if c =? ch ":" then [r] else []
  | [] => []
  end.

(** [\s+], which stands for the blank of the format: what follows each
    run of white space, the longest run first. *)
Fixpoint re_spaces (s : pystr) : list pystr :=
  match s with
  | c :: r => if is_space c then re_spaces r ++ [r] else []
  | [] => []
  end.

(** [%p], the group [(?P<p>am|pm)] of the C locale, letters matched
    without regard to case. *)
Definition re_p (s : pystr) : matches :=
  match s with
  | a :: b :: r =>
      if ignore_case (ch "a") a && ignore_case (ch "m") b
      then [([a; b], r)] else []
  | _ => []
  end
  ++
  match s with
  | a :: b :: r =>
      if ignore_case (ch "p") a && ignore_case (ch "m") b
      then [([a; b], r)] else []
  | _ => []
  end.

(** What [format_regex.match(data_string)] finds. *)
Record found : Type := mk_found {
  group_I : pystr;
  group_M : pystr;
  group_p : pystr;
  unconverted : pystr   (* [data_string[found.end():]] *)
}.

(** The matches of the pattern [(?P<I>...):(?P<M>...)\s+(?P<p>...)] are
    built from its end: each definition below is the part of the pattern
    from one element on, given the groups already matched. *)

(** From the group [p] on. *)
Definition from_p (gI gM : pystr) (s : pystr) : list found :=
  map (fun '(gp, r) => mk_found gI gM gp r) (re_p s).

(** From [\s+] on. *)
Definition from_spaces (gI gM : pystr) (s : pystr) : list found :=
  flat_map (from_p gI gM) (re_spaces s).

(** From the group [M] on. *)
Definition from_M (gI : pystr) (s : pystr) : list found :=
  flat_map (fun '(gM, r) => from_spaces gI gM r) (re_M s).

(** From the colon on. *)
Definition from_colon (gI : pystr) (s : pystr) : list found :=
  flat_map (from_M gI) (re_colon s).

(** Every match of the whole pattern at the start of the subject, in the
    order of the engine. *)
Definition all_matches (s : pystr) : list found :=
  flat_map (fun '(gI, r) => from_colon gI r) (re_I s).

(** [format_regex.match(data_string)]: the first match. *)
Definition regex_match (s : pystr) : option found := hd_error (all_matches s).

(** The hour on the 24-hour clock from the hour of [%I] and the meridiem
    of [%p]. *)
Definition hour24 (h : Z) (ampm : pystr) : Z :=
  if PyStr.eqb ampm [] || PyStr.eqb ampm (py "am") then
    (* 12 midnight is hour 0 *)
    if (h =? 12)%Z then 0%Z else h
  else if PyStr.eqb ampm (py "pm") then
    (* 12 noon is hour 12, the other hours of the afternoon add 12 *)
    if negb (h =? 12)%Z then (h + 12)%Z else h
  else h.

(** [datetime.datetime.strptime(data_string, "%I:%M %p")].  A subject
    that the pattern does not match, or matches only in part, raises
    [ValueError]; the date defaults to 1900-01-01. *)
Definition strptime (data_string : pystr) : result Datetime.datetime :=
  match regex_match data_string with
  | None => Raise ValueError
  | Some f =>
      match unconverted f with
      | _ :: _ => Raise ValueError
      | [] =>
          let h := hour24 (int (group_I f)) (lower (group_p f)) in
          let m := int (group_M f) in
          Datetime.new 1900 h m
      end
  end.

End Strptime.

(** ** [get_zawal_time] *)

(** The literal of the [except] branch. *)
Definition fallback_time : pystr := py "11:45 AM".

(** [get_zawal_time]: five minutes before the time of dhuhr, and the
    literal of the [except] branch for whatever the [try] block raises. *)
Definition get_zawal_time (dhuhr_time : pystr) : result pystr :=
  try_except
    (dhuhr_dt <- Strptime.strptime dhuhr_time ;;
     zawal_dt <- Datetime.sub_minutes dhuhr_dt 5 ;;
     Ok (Datetime.strftime zawal_dt))
    (fun _ => Ok fallback_time).

(** ** The forms of a time string *)

Module Form.
Import Unicode.

(** The pattern [HH:MM AM|PM] in the words of the specification: an hour
    from 01 to 12 and a minute from 00 to 59, each on two ASCII digits
    padded with a zero, one blank and the meridiem in capitals. *)
Definition matches_HHMM_pattern (s : pystr) : bool :=
  match s with
  | [h1; h2; c; m1; m2; b; x; y] =>
      (((h1 =? ch "0") && in_range h2 (ch "1") (ch "9"))
       || ((h1 =? ch "1") && in_range h2 (ch "0") (ch "2")))
      && (c =? ch ":")
      && in_range m1 (ch "0") (ch "5") && in_range m2 (ch "0") (ch "9")
      && (b =? ch " ")
      && ((x =? ch "A") || (x =? ch "P")) && (y =? ch "M")
  | _ => false
  end.

(** An hour from 1 to 12 in ASCII digits, with or without the zero. *)
Definition is_hour_text (t : pystr) : bool :=
  match t with
  | [a] => in_range a (ch "1") (ch "9")
  | [a; b] =>
      ((a =? ch "0") && in_range b (ch "1") (ch "9"))
      || ((a =? ch "1") && in_range b (ch "0") (ch "2"))
  | _ => false
  end.

(** A minute from 0 to 59: one decimal digit of any script, or an ASCII
    digit up to 5 and a decimal digit of any script. *)
Definition is_minute_text (t : pystr) : bool :=
  match t with
  | [a] => is_decimal a
  | [a; b] => in_range a (ch "0") (ch "5") && is_decimal b
  | _ => false
  end.

(** One white-space character or more. *)
Definition is_blank_text (t : pystr) : bool :=
  match t with
  | [] => false
  | _ :: _ => forallb is_space t
  end.

(** [am] or [pm], each letter in either case. *)
Definition is_meridiem_text (t : pystr) : bool :=
  match t with
  | [a; b] =>
      ((a =? ch "a") || (a =? ch "A") || (a =? ch "p") || (a =? ch "P"))
      && ((b =? ch "m") || (b =? ch "M"))
  | _ => false
  end.

(** The strings [strptime] takes for ["%I:%M %p"]: hour, colon, minute,
    white space, meridiem, and nothing else. *)
Definition accepted_form (s : pystr) : Prop :=
  exists h m w p,
    s = h ++ py ":" ++ m ++ w ++ p
    /\ is_hour_text h = true /\ is_minute_text m = true
    /\ is_blank_text w = true /\ is_meridiem_text p = true.

End Form.

(** The six prayer names, in the order of the displays. *)
Definition prayer_names : list pystr :=
  [ py "فجر"; py "طلوع آفتاب"; py "ظہر"; py "عصر"; py "مغرب"; py "عشاء" ].

(** The times of Karachi, by their place in [prayer_times_data]. *)
Definition karachi_times : PrayerTimeSet :=
  [ (py "فجر", py "05:15 AM");
    (py "طلوع آفتاب", py "06:45 AM");
    (py "ظہر", py "12:30 PM");
    (py "عصر", py "04:00 PM");
    (py "مغرب", py "06:45 PM");
    (py "عشاء", py "08:15 PM") ].

(** No two strings of the list are equal. *)
Fixpoint distinct (l : list pystr) : bool :=
  match l with
  | [] => true
  | x :: l' => negb (existsb (PyStr.eqb x) l') && distinct l'
  end.

(** [l == l'] on lists of strings. *)
Fixpoint pystr_list_eqb (l l' : list pystr) : bool :=
  match l, l' with
  | [], [] => true
  | s :: l1, s' :: l1' => PyStr.eqb s s' && pystr_list_eqb l1 l1'
  | _, _ => false
  end.

(** ** Times of day *)

Module Clock.

(** The minutes since midnight of a time. *)
Definition minutes_of_day (dt : Datetime.datetime) : Z :=
  (Datetime.hour dt * 60 + Datetime.minute dt)%Z.

(** The time of day that is [n] minutes after midnight, as
    [strftime("%I:%M %p")] writes it. *)
Definition clock (n : Z) : pystr :=
  Datetime.strftime (Datetime.mk_datetime 1 (n / 60) (n mod 60)).

(** [get_zawal_time] applied [n] times, each call on what the call before
    returned. *)
Fixpoint repeat_zawal (n : nat) (s : pystr) : result pystr :=
  match n with
  | O => Ok s
  | S n' => out <- repeat_zawal n' s ;; get_zawal_time out
  end.

End Clock.

(** ** The uses of the helpers in [main] *)

Module Main.

(** The zawal time shown for the city chosen: [get_prayer_times], then
    [prayer_times.get] of the dhuhr time with its default, then
    [get_zawal_time]. *)
Definition zawal_time (selected_city : pystr) : result pystr :=
  prayer_times <- get_prayer_times (Some selected_city) ;;
  let dhuhr_time := Dict.get prayer_times (py "ظہر") (py "12:30 PM") in
  get_zawal_time dhuhr_time.

(** The loop [for i, (prayer, time) in enumerate(prayers)] from the index
    [i] on: each item is shown in the column [cols[i]].  The result is
    which column shows which item, or [None] when a subscription
    [cols[i]] is out of range ([IndexError]). *)
Fixpoint fill_columns {C : Type} (cols : list C) (i : nat)
    (prayers : list (pystr * pystr)) : option (list (C * (pystr * pystr))) :=
  match prayers with
  | [] => Some []
  | item :: prayers' =>
      match nth_error cols i with
      | None => None
      | Some c =>
          match fill_columns cols (S i) prayers' with
          | None => None
          | Some shown => Some ((c, item) :: shown)
          end
      end
  end.

(** The prayer times of the city chosen in the columns [cols], which
    [main] obtains from [st.columns(6)]; [list(prayer_times.items())] is
    the dictionary itself. *)
Definition prayer_columns {C : Type} (cols : list C) (selected_city : pystr)
  : result (option (list (C * (pystr * pystr)))) :=
  prayer_times <- get_prayer_times (Some selected_city) ;;
  Ok (fill_columns cols 0 prayer_times).

(** The minutes since midnight that [strptime] reads in a string. *)
Definition minutes_in (s : pystr) : result Z :=
  dt <- Strptime.strptime s ;; Ok (Clock.minutes_of_day dt).

(** The minutes since midnight of each time string of a dictionary, in
    the order of its items. *)
Fixpoint minutes_of_values (times : PrayerTimeSet) : result (list Z) :=
  match times with
  | [] => Ok []
  | (_, t) :: times' =>
      n <- minutes_in t ;;
      ns <- minutes_of_values times' ;;
      Ok (n :: ns)
  end.

(** Each number of the list is less than the next. *)
Fixpoint increasing (l : list Z) : bool :=
  match l with
  | a :: (b :: _) as l' => (a <? b)%Z && increasing l'
  | _ => true
  end.

End Main.

(** ** [load_islamic_images] *)

Module Images.

(** What the function reads of the file system: the paths that exist
    ([os.path.exists]), and for a path what [Image.open] gives, the image
    or the text of the exception it raises.  The file system is taken not
    to change during the call. *)
Record filesystem (Image : Type) : Type := mk_filesystem {
  path_exists : pystr -> bool;
  image_open : pystr -> Image + pystr
}.

Arguments path_exists {Image} f _.
Arguments image_open {Image} f _.

(** [os.path.join(a, b)] for POSIX paths. *)
Definition os_path_join (a b : pystr) : pystr :=
  match b with
  | c :: _ => if c =? ch "/" then b
              else match rev a with
                   | [] => b
                   | l :: _ => if l =? ch "/" then a ++ b
                               else a ++ py "/" ++ b
                   end
  | [] => match rev a with
          | [] => b
          | l :: _ => if l =? ch "/" then a else a ++ py "/"
          end
  end.

(** [d[k] = v]: the value of an existing key is replaced in place, a new
    key is added after the others. *)
Fixpoint setitem {V : Type} (d : Dict.dict V) (k : pystr) (v : V)
  : Dict.dict V :=
  match d with
  | [] => [(k, v)]
  | (k', v') :: d' =>
      if PyStr.eqb k' k then (k', v) :: d' else (k', v') :: setitem d' k v
  end.

(** The literal [image_folder]. *)
Definition image_folder : pystr := py "islamic".

(** The literal [image_files]. *)
Definition image_files : Dict.dict pystr :=
  [ (py "masjid_haram", py "101.jpg");
    (py "masjid_nabwi", py "102.jpg");
    (py "masjid_aqsa", py "103.jpg");
    (py "fateh_makkah", py "104.jpg") ].

(** The state of the loop: the dictionary [images], and the texts given to
    [st.warning] so far, the oldest first. *)
Definition state (Image : Type) : Type := (Dict.dict Image * list pystr)%type.

(** One turn of the loop [for image_name, filename in image_files.items()]. *)
Definition load_one {Image : Type} (fs : filesystem Image)
    (st : state Image) (item : pystr * pystr) : state Image :=
  let '(images, warnings) := st in
  let '(image_name, filename) := item in
  let image_path := os_path_join image_folder filename in
  if path_exists fs image_path then
    match image_open fs image_path with
    | inl image => (setitem images image_name image, warnings)
    | inr e =>
        (images,
         warnings ++ [py "تصویر لوڈ نہیں ہو سکی " ++ filename ++ py ": " ++ e])
    end
  else (images, warnings ++ [py "📄 فائل نہیں ملی: " ++ image_path]).

(** The loop over the items of a dictionary of file names. *)
Definition load_all {Image : Type} (fs : filesystem Image)
    (files : Dict.dict pystr) (st : state Image) : state Image :=
  fold_left (load_one fs) files st.

(** [load_islamic_images]: the dictionary returned and the warnings
    shown. *)
Definition load_islamic_images {Image : Type} (fs : filesystem Image)
  : state Image :=
  if negb (path_exists fs image_folder) then
    ([],
     [py "📁 '" ++ image_folder
      ++ py "' فولڈر نہیں ملا۔ براہ کرم چیک کریں کہ فولڈر موجود ہے۔"])
  else load_all fs image_files ([], []).

(** What one file of [image_files] gives: [Some image] when its path
    exists and opens. *)
Definition loaded {Image : Type} (fs : filesystem Image) (filename : pystr)
  : option Image :=
  let image_path := os_path_join image_folder filename in
  if path_exists fs image_path then
    match image_open fs image_path with
    | inl image => Some image
    | inr _ => None
    end
  else None.

End Images.

(** ** The search of hadiths and verses in [main] *)

Module Search.

(** The literal [HADITHS]. *)
Definition HADITHS : list (Dict.dict pystr) :=
  [ [ (py "arabic", py "إنما الأعمال بالنيات");
      (py "urdu", py "اعمال کا دارومدار نیتوں پر ہے");
      (py "reference", py "بخاری") ];
    [ (py "arabic", py "من حسن إسلام المرء تركه ما لا يعنيه");
      (py "urdu", py "آدمی کے اسلام کے اچھا ہونے کی علامت یہ ہے کہ وہ بیکار باتوں کو چھوڑ دے");
      (py "reference", py "ترمذی") ];
    [ (py "arabic", py "لا يؤمن أحدكم حتى يحب لأخيه ما يحب لنفسه");
      (py "urdu", py "تم میں سے کوئی شخص اس وقت تک مومن نہیں ہوسکتا جب تک اپنے بھائی کے لیے وہی پسند نہ کرے جو اپنے لیے پسند کرتا ہے");
      (py "reference", py "بخاری") ];
    [ (py "arabic", py "الكلمة الطيبة صدقة");
      (py "urdu", py "اچھی بات بھی صدقہ ہے");
      (py "reference", py "بخاری") ];
    [ (py "arabic", py "اتق الله حيثما كنت");
      (py "urdu", py "جہاں کہیں بھی ہو اللہ سے ڈرو");
      (py "reference", py "ترمذی") ];
    [ (py "arabic", py "الطهور شطر الإيمان");
      (py "urdu", py "پاکیزگی آدھا ایمان ہے");
      (py "reference", py "مسلم") ] ].

(** The literal [QURAN_VERSES]. *)
Definition QURAN_VERSES : list (Dict.dict pystr) :=
  [ [ (py "arabic", py "إِنَّ مَعَ الْعُسْرِ يُسْرًا");
      (py "urdu", py "بے شک مشکل کے ساتھ آسانی ہے");
      (py "surah", py "الشرح");
      (py "verse", py "6") ];
    [ (py "arabic", py "وَإِنَّ اللَّهَ مَعَ الصَّابِرِينَ");
      (py "urdu", py "اور بے شک اللہ صبر کرنے والوں کے ساتھ ہے");
      (py "surah", py "البقرة");
      (py "verse", py "153") ];
    [ (py "arabic", py "رَبِّ زِدْنِي عِلْمًا");
      (py "urdu", py "اے میرے رب، میرے علم میں اضافہ فرما");
      (py "surah", py "طہ");
      (py "verse", py "114") ];
    [ (py "arabic", py "إِنَّ اللَّهَ يُحِبُّ التَّوَّابِينَ وَيُحِبُّ الْمُتَطَهِّرِينَ");
      (py "urdu", py "بے شک اللہ توبہ کرنے والوں اور پاک رہنے والوں کو پسند فرماتا ہے");
      (py "surah", py "البقرة");
      (py "verse", py "222") ];
    [ (py "arabic", py "قُلْ هُوَ اللَّهُ أَحَدٌ");
      (py "urdu", py "کہو وہ اللہ ایک ہے");
      (py "surah", py "الاخلاص");
      (py "verse", py "1") ];
    [ (py "arabic", py "لَا إِلَٰهَ إِلَّا اللَّهُ");
      (py "urdu", py "اللہ کے سوا کوئی معبود نہیں");
      (py "surah", py "الصافات");
      (py "verse", py "35") ] ].

(** [hay.startswith(needle)]. *)
Fixpoint startswith (needle hay : pystr) : bool :=
  match needle, hay with
  | [], _ => true
  | c :: needle', d :: hay' => (c =? d) && startswith needle' hay'
  | _ :: _, [] => false
  end.

(** [needle in hay] on strings: [needle] is found at some position of
    [hay]. *)
Fixpoint str_in (needle hay : pystr) : bool :=
  startswith needle hay
  || match hay with
     | [] => false
     | _ :: hay' => str_in needle hay'
     end.

(** A record that has the two fields searched. *)
Definition searchable (h : Dict.dict pystr) : bool :=
  match Dict.lookup h (py "arabic"), Dict.lookup h (py "urdu") with
  | Some _, Some _ => true
  | _, _ => false
  end.

(** A record has each of the fields [names]. *)
Definition has_fields (names : list pystr) (h : Dict.dict pystr) : bool :=
  forallb (fun name => match Dict.lookup h name with
                       | Some _ => true
                       | None => false
                       end) names.

(** The double quote and the line feed, for the texts that hold them. *)
Definition dq : pystr := [34].
Definition nl : pystr := [10].

(** The text of the f-string shown for a hadith. *)
Definition hadith_markdown (arabic urdu reference : pystr) : pystr :=
  nl
  ++ py "                    <div class=" ++ dq ++ py "highlight-box" ++ dq ++ py " style=" ++ dq ++ py "border-right: 5px solid #A23B72;" ++ dq ++ py ">" ++ nl
  ++ py "                        <div class=" ++ dq ++ py "arabic-text" ++ dq ++ py ">" ++ arabic ++ py "</div>" ++ nl
  ++ py "                        <div class=" ++ dq ++ py "urdu-text" ++ dq ++ py ">" ++ urdu ++ py "</div>" ++ nl
  ++ py "                        <p style=" ++ dq ++ py "text-align: left;" ++ dq ++ py ">📚 حوالہ: " ++ reference ++ py "</p>" ++ nl
  ++ py "                    </div>" ++ nl
  ++ py "                    ".

(** The text of the f-string shown for a verse. *)
Definition verse_markdown (arabic urdu surah verse : pystr) : pystr :=
  nl
  ++ py "                    <div class=" ++ dq ++ py "highlight-box" ++ dq ++ py " style=" ++ dq ++ py "border-right: 5px solid #2E86AB;" ++ dq ++ py ">" ++ nl
  ++ py "                        <div class=" ++ dq ++ py "arabic-text" ++ dq ++ py ">" ++ arabic ++ py "</div>" ++ nl
  ++ py "                        <div class=" ++ dq ++ py "urdu-text" ++ dq ++ py ">" ++ urdu ++ py "</div>" ++ nl
  ++ py "                        <p style=" ++ dq ++ py "text-align: left; color: #666;" ++ dq ++ py ">📖 سورۃ **" ++ surah ++ py "** - آیت **" ++ verse ++ py "**</p>" ++ nl
  ++ py "                    </div>" ++ nl
  ++ py "                    ".

(** The evaluation of the f-string for a hadith: its three subscripts,
    from left to right. *)
Definition render_hadith (hadith : Dict.dict pystr) : result pystr :=
  arabic <- Dict.getitem hadith (py "arabic") ;;
  urdu <- Dict.getitem hadith (py "urdu") ;;
  reference <- Dict.getitem hadith (py "reference") ;;
  Ok (hadith_markdown arabic urdu reference).

(** The evaluation of the f-string for a verse: its four subscripts, from
    left to right. *)
Definition render_verse (verse : Dict.dict pystr) : result pystr :=
  arabic <- Dict.getitem verse (py "arabic") ;;
  urdu <- Dict.getitem verse (py "urdu") ;;
  surah <- Dict.getitem verse (py "surah") ;;
  number <- Dict.getitem verse (py "verse") ;;
  Ok (verse_markdown arabic urdu surah number).

(** A call of the display layer: [st.markdown(body, unsafe_allow_html)]
    or [st.warning(body)]. *)
Inductive call : Type :=
| Markdown (body : pystr) (unsafe_allow_html : bool)
| Warning (body : pystr).

(** What a block of statements does: the calls made, the oldest first,
    and how the block ends, normally or by raising. *)
Definition outcome : Type := (list call * result unit)%type.

(** The loop [for h in records: st.markdown(f"...", unsafe_allow_html=True)]:
    a subscript that raises ends the loop after the calls already made. *)
Fixpoint show_all (render : Dict.dict pystr -> result pystr)
    (records : list (Dict.dict pystr)) : outcome :=
  match records with
  | [] => ([], Ok tt)
  | h :: records' =>
      match render h with
      | Raise e => ([], Raise e)
      | Ok body =>
          let (calls, ending) := show_all render records' in
          (Markdown body true :: calls, ending)
      end
  end.

(** The branch taken when something was found: the title of the hadiths
    and the hadiths, then the title of the verses and the verses. *)
Definition show_results (found_hadiths found_verses : list (Dict.dict pystr))
  : outcome :=
  let (calls1, ending1) := show_all render_hadith found_hadiths in
  match ending1 with
  | Raise e => (Markdown (py "### 📜 احادیث کے نتائج") false :: calls1, Raise e)
  | Ok _ =>
      let (calls2, ending2) := show_all render_verse found_verses in
      (Markdown (py "### 📜 احادیث کے نتائج") false :: calls1
       ++ Markdown (py "### 📘 آیات کے نتائج") false :: calls2,
       ending2)
  end.

Section WithLower.

(** [str.lower], whose table of cases belongs to the interpreter. *)
Variable str_lower : pystr -> pystr.

(** The condition of the two comprehensions,
    [search_term.lower() in h["arabic"].lower() or search_term in h["urdu"]];
    [h["urdu"]] is evaluated only when the first test fails. *)
Definition matches_term (search_term : pystr) (h : Dict.dict pystr)
  : result bool :=
  arabic <- Dict.getitem h (py "arabic") ;;
  if str_in (str_lower search_term) (str_lower arabic) then Ok true
  else urdu <- Dict.getitem h (py "urdu") ;; Ok (str_in search_term urdu).

(** The comprehension [[h for h in records if ...]]. *)
Fixpoint found (search_term : pystr) (records : list (Dict.dict pystr))
  : result (list (Dict.dict pystr)) :=
  match records with
  | [] => Ok []
  | h :: records' =>
      keep <- matches_term search_term h ;;
      rest <- found search_term records' ;;
      Ok (if keep then h :: rest else rest)
  end.

(** The search block of [main] for the term typed: nothing for an empty
    term; otherwise the two comprehensions, then the results, or the
    warning when both lists are empty. *)
Definition search (search_term : pystr) : outcome :=
  match search_term with
  | [] => ([], Ok tt)
  | _ :: _ =>
      match found search_term HADITHS with
      | Raise e => ([], Raise e)
      | Ok found_hadiths =>
          match found search_term QURAN_VERSES with
          | Raise e => ([], Raise e)
          | Ok found_verses =>
              match found_hadiths, found_verses with
              | [], [] =>
                  ([Warning (py "آپ کی تلاش سے متعلق کوئی حدیث یا آیت نہیں ملی۔")],
                   Ok tt)
              | _, _ => show_results found_hadiths found_verses
              end
          end
      end
  end.

End WithLower.

End Search.

(** * Properties *)

(** ** Strings and dictionaries *)

Section StringFacts.

Lemma pystr_eqb_eq (s t : pystr) : PyStr.eqb s t = true <-> s = t.
Proof.
  revert t; induction s as [|a s IH]; intros [|b t]; simpl;
    try (split; [discriminate | congruence]).
  - split; reflexivity.
  - rewrite andb_true_iff, N.eqb_eq, IH.
    split; [intros [-> ->]; reflexivity | intros H; inversion H; auto].
Qed.

Lemma pystr_eqb_refl (s : pystr) : PyStr.eqb s s = true.
Proof. apply pystr_eqb_eq; reflexivity. Qed.

Lemma pystr_eqb_neq (s t : pystr) : PyStr.eqb s t = false <-> s <> t.
Proof.
  rewrite <- pystr_eqb_eq. destruct (PyStr.eqb s t); split; congruence.
Qed.

End StringFacts.

Section DictFacts.

Context {V : Type}.
Implicit Types (d : Dict.dict V) (k : pystr) (v : V).

(** A key that is absent is one that [lookup] does not find. *)
Lemma lookup_None d k : Dict.lookup d k = None <-> ~ In k (Dict.keys d).
Proof.
  induction d as [|[k' v'] d IH]; simpl.
  - tauto.
  - destruct (PyStr.eqb k' k) eqn:E.
    + apply pystr_eqb_eq in E. split; [discriminate | tauto].
    + apply pystr_eqb_neq in E. rewrite IH. tauto.
Qed.

(** In a dictionary without a repeated key, [lookup] finds every item. *)
Lemma lookup_item d k v :
  NoDup (Dict.keys d) -> In (k, v) d -> Dict.lookup d k = Some v.
Proof.
  induction d as [|[k' v'] d IH]; simpl; [tauto|].
  intros Hnd [E | Hin].
  - inversion E; subst. rewrite pystr_eqb_refl. reflexivity.
  - inversion Hnd as [|? ? Hnotin Hnd']; subst.
    destruct (PyStr.eqb k' k) eqn:E.
    + apply pystr_eqb_eq in E; subst. exfalso. apply Hnotin.
      change k with (fst (k, v)). apply in_map, Hin.
    + apply IH; assumption.
Qed.

Lemma get_absent d k v : ~ In k (Dict.keys d) -> Dict.get d k v = v.
Proof.
  intros H. unfold Dict.get. apply lookup_None in H. rewrite H. reflexivity.
Qed.

Lemma get_item d k v v0 :
  NoDup (Dict.keys d) -> In (k, v) d -> Dict.get d k v0 = v.
Proof.
  intros Hnd Hin. unfold Dict.get. rewrite (lookup_item d k v Hnd Hin).
  reflexivity.
Qed.

End DictFacts.

(** ** The catalog *)

Lemma NoDup_pystr (l : list pystr) : distinct l = true -> NoDup l.
Proof.
  induction l as [|x l IH]; intros H; constructor.
  - apply andb_true_iff in H as [H _]. apply negb_true_iff in H.
    intros Hin. assert (existsb (PyStr.eqb x) l = true) as E.
    { apply existsb_exists. exists x. split; [assumption | apply pystr_eqb_refl]. }
    congruence.
  - apply IH. apply andb_true_iff in H as [_ H]. exact H.
Qed.

Lemma catalog_keys :
  Dict.keys prayer_times_data
  = [ py "Karachi"; py "Lahore"; py "Islamabad"; py "Peshawar"; py "Quetta" ].
Proof. reflexivity. Qed.

Lemma catalog_keys_NoDup : NoDup (Dict.keys prayer_times_data).
Proof. apply NoDup_pystr. vm_compute. reflexivity. Qed.

Lemma catalog_default :
  Dict.getitem prayer_times_data (py "Karachi") = Ok karachi_times.
Proof. reflexivity. Qed.

(** [get_prayer_times] is [.get] with the times of Karachi for default. *)
Lemma get_prayer_times_unfold (arg : option pystr) :
  get_prayer_times arg
  = Ok (Dict.get prayer_times_data (bind_city arg) karachi_times).
Proof. unfold get_prayer_times. rewrite catalog_default. reflexivity. Qed.

(** C1.  The keys of the catalog are Karachi, Lahore, Islamabad, Peshawar
    and Quetta, and for every item [(city, times)] of the catalog
    [get_prayer_times city] returns [times], the dictionary the literal
    binds to that city. *)
Theorem get_prayer_times_known_city :
  Dict.keys prayer_times_data
  = [ py "Karachi"; py "Lahore"; py "Islamabad"; py "Peshawar"; py "Quetta" ]
  /\ forall (city : pystr) (times : PrayerTimeSet),
       In (city, times) prayer_times_data ->
       get_prayer_times (Some city) = Ok times.
Proof.
  split; [reflexivity|].
  intros city times Hin. rewrite get_prayer_times_unfold. simpl bind_city.
  f_equal. apply get_item; [apply catalog_keys_NoDup | exact Hin].
Qed.

Lemma get_prayer_times_known_city_witness :
  get_prayer_times (Some (py "Quetta"))
  = Ok [ (py "فجر", py "05:00 AM");
         (py "طلوع آفتاب", py "06:30 AM");
         (py "ظہر", py "12:40 PM");
         (py "عصر", py "04:10 PM");
         (py "مغرب", py "07:00 PM");
         (py "عشاء", py "08:30 PM") ].
Proof.
  apply (proj2 get_prayer_times_known_city).
  simpl. do 4 right. left. reflexivity.
Defined.

(** C2.  For every string that is not a key of the catalog
    [get_prayer_times] returns the times of Karachi; the empty string and
    ["karachi"] are such strings; and no call raises. *)
Theorem get_prayer_times_unknown_city :
  (forall city : pystr,
     ~ In city (Dict.keys prayer_times_data) ->
     get_prayer_times (Some city) = Ok karachi_times)
  /\ ~ In (py "") (Dict.keys prayer_times_data)
  /\ ~ In (py "karachi") (Dict.keys prayer_times_data)
  /\ forall arg : option pystr, exists times, get_prayer_times arg = Ok times.
Proof.
  split; [|split; [|split]].
  - intros city Hout. rewrite get_prayer_times_unfold. simpl bind_city.
    f_equal. apply get_absent, Hout.
  - apply lookup_None. reflexivity.
  - apply lookup_None. reflexivity.
  - intros arg. rewrite get_prayer_times_unfold. eexists. reflexivity.
Qed.

Lemma get_prayer_times_unknown_city_witness :
  get_prayer_times (Some (py "karachi")) = Ok karachi_times.
Proof.
  apply (proj1 get_prayer_times_unknown_city).
  apply lookup_None. vm_compute. reflexivity.
Defined.

(** C7.  The catalog has five cities, and the dictionary of every city has
    six items whose keys are the six prayer names, all different, in the
    same order. *)
Theorem catalog_same_six_keys :
  List.length prayer_times_data = 5%nat
  /\ NoDup prayer_names
  /\ Forall (fun times : PrayerTimeSet =>
               List.length times = 6%nat /\ Dict.keys times = prayer_names)
            (Dict.values prayer_times_data).
Proof.
  split; [reflexivity|]. split.
  - apply NoDup_pystr. vm_compute. reflexivity.
  - repeat constructor.
Qed.

(** C9.  A call without argument binds [city] to ["Karachi"] and returns
    the times of Karachi. *)
Theorem get_prayer_times_no_argument :
  bind_city None = py "Karachi"
  /\ get_prayer_times None = get_prayer_times (Some (py "Karachi"))
  /\ get_prayer_times None
     = Ok [ (py "فجر", py "05:15 AM");
            (py "طلوع آفتاب", py "06:45 AM");
            (py "ظہر", py "12:30 PM");
            (py "عصر", py "04:00 PM");
            (py "مغرب", py "06:45 PM");
            (py "عشاء", py "08:15 PM") ].
Proof. repeat split. Qed.

(** ** What the pattern of [strptime] matches *)

Import Unicode Strptime Form.

Ltac split_bools :=
  repeat match goal with
  | H : _ && _ = true |- _ => apply andb_true_iff in H; destruct H
  | H : In _ (_ ++ _) |- _ => apply in_app_or in H; destruct H
  | H : In _ [] |- _ => destruct H
  | H : In _ (_ :: _) |- _ => destruct H
  | H : In _ (if ?b then _ else _) |- _ => destruct b eqn:?
  | H : (_, _) = (_, _) |- _ => inversion H; subst; clear H
  end.

Lemma re_I_sound s t r :
  In (t, r) (re_I s) -> s = t ++ r /\ is_hour_text t = true.
Proof.
  unfold re_I. destruct s as [|a [|b s]]; intros H; split_bools;
    (split; [reflexivity|]); unfold is_hour_text.
  all: try assumption.
  all: repeat match goal with H : ?x = true |- _ => rewrite H; clear H end.
  all: auto using orb_true_r.
Qed.

Lemma re_M_sound s t r :
  In (t, r) (re_M s) -> s = t ++ r /\ is_minute_text t = true.
Proof.
  unfold re_M. destruct s as [|a [|b s]]; intros H; split_bools;
    (split; [reflexivity|]); unfold is_minute_text.
  all: try assumption.
  all: apply andb_true_iff; split; assumption.
Qed.

Lemma ignore_case_cases l c :
  ignore_case l c = true -> c = l \/ c = l - 32.
Proof.
  unfold ignore_case. rewrite orb_true_iff, !N.eqb_eq. tauto.
Qed.

Lemma re_p_sound s t r :
  In (t, r) (re_p s) -> s = t ++ r /\ is_meridiem_text t = true.
Proof.
  unfold re_p. destruct s as [|a [|b s]]; intros H; split_bools;
    (split; [reflexivity|]).
  all: repeat match goal with
       | H : ignore_case _ _ = true |- _ =>
           apply ignore_case_cases in H; destruct H; subst
       end; reflexivity.
Qed.

Lemma re_colon_sound s r : In r (re_colon s) -> s = py ":" ++ r.
Proof.
  unfold re_colon. destruct s as [|c s]; intros H; split_bools.
  subst. match goal with H : (c =? _) = true |- _ => apply N.eqb_eq in H; subst end.
  reflexivity.
Qed.

Lemma re_spaces_sound s r :
  In r (re_spaces s) -> exists w, s = w ++ r /\ is_blank_text w = true.
Proof.
  revert r. induction s as [|c s IH]; simpl; intros r H; [destruct H|].
  destruct (is_space c) eqn:Ec; [|destruct H].
  apply in_app_or in H as [H | [<- | []]].
  - destruct (IH r H) as (w & -> & Hw). exists (c :: w). split; [reflexivity|].
    destruct w; [discriminate|]. simpl in *. rewrite Ec. exact Hw.
  - exists [c]. split; [reflexivity|]. simpl. rewrite Ec. reflexivity.
Qed.

Lemma all_matches_sound s f :
  In f (all_matches s) ->
  exists w,
    s = group_I f ++ py ":" ++ group_M f ++ w ++ group_p f ++ unconverted f
    /\ is_hour_text (group_I f) = true /\ is_minute_text (group_M f) = true
    /\ is_blank_text w = true /\ is_meridiem_text (group_p f) = true.
Proof.
  unfold all_matches, from_colon, from_M, from_spaces, from_p. intros H.
  apply in_flat_map in H as ([gI r1] & HI & H).
  apply in_flat_map in H as (r2 & Hc & H).
  apply in_flat_map in H as ([gM r3] & HM & H).
  apply in_flat_map in H as (r4 & Hs & H).
  apply in_map_iff in H as ([gp r5] & <- & Hp).
  apply re_I_sound in HI as [-> HI].
  apply re_colon_sound in Hc as ->.
  apply re_M_sound in HM as [-> HM].
  apply re_spaces_sound in Hs as (w & -> & Hw).
  apply re_p_sound in Hp as [-> Hp].
  exists w. simpl. auto.
Qed.

Lemma regex_match_In s f : regex_match s = Some f -> In f (all_matches s).
Proof.
  unfold regex_match. destruct (all_matches s); simpl; [discriminate|].
  intros H; inversion H; auto.
Qed.

(** A string that [strptime] parses has the accepted form. *)
Lemma strptime_Ok_accepted s dt : strptime s = Ok dt -> accepted_form s.
Proof.
  unfold strptime. destruct (regex_match s) as [f|] eqn:Ef; [|discriminate].
  destruct (unconverted f) eqn:Eu; [|discriminate]. intros _.
  apply regex_match_In, all_matches_sound in Ef as (w & Es & HI & HM & Hw & Hp).
  rewrite Eu, app_nil_r in Es. exists (group_I f), (group_M f), w, (group_p f).
  auto.
Qed.

(** The fields of a parsed time. *)
Lemma strptime_Ok_fields s dt :
  strptime s = Ok dt ->
  Datetime.ordinal dt = 693596%Z
  /\ (0 <= Datetime.hour dt <= 23)%Z /\ (0 <= Datetime.minute dt <= 59)%Z.
Proof.
  unfold strptime. destruct (regex_match s) as [f|]; [|discriminate].
  destruct (unconverted f); [|discriminate]. unfold Datetime.new.
  match goal with |- context [if ?c then _ else _] => destruct c eqn:E end;
    [|discriminate].
  intros H; inversion H; subst; clear H. simpl.
  rewrite !andb_true_iff, !Z.leb_le in E. split; [reflexivity | lia].
Qed.

(** A string outside of the accepted form makes [strptime] raise
    [ValueError]. *)
Lemma strptime_not_accepted s :
  ~ accepted_form s -> strptime s = Raise ValueError.
Proof.
  intros Hn. destruct (strptime s) as [dt|e] eqn:E.
  - exfalso. apply Hn. eapply strptime_Ok_accepted, E.
  - revert E. unfold strptime, Datetime.new.
    destruct (regex_match s) as [f|]; [|congruence].
    destruct (unconverted f); [|congruence].
    match goal with |- context [if ?c then _ else _] => destruct c end;
      congruence.
Qed.

Lemma sub_minutes_fields dt k dt' :
  Datetime.sub_minutes dt k = Ok dt' ->
  (0 <= Datetime.hour dt' <= 23)%Z /\ (0 <= Datetime.minute dt' <= 59)%Z.
Proof.
  unfold Datetime.sub_minutes.
  match goal with |- context [if ?c then _ else _] => destruct c end;
    [|discriminate].
  intros H; inversion H; subst; clear H. simpl.
  set (total := (_ - k)%Z).
  pose proof (Z.mod_pos_bound total 1440 ltac:(lia)) as Hr.
  pose proof (Z.mod_pos_bound (total mod 1440) 60 ltac:(lia)).
  split; [|lia]. split.
  - apply Z.div_pos; lia.
  - assert (total mod 1440 / 60 < 24)%Z; [|lia].
    apply Z.div_lt_upper_bound; lia.
Qed.

(** Five minutes before a time of 1900-01-01 is a date in range. *)
Lemma sub_minutes_5_Ok dt :
  Datetime.ordinal dt = 693596%Z ->
  (0 <= Datetime.hour dt <= 23)%Z -> (0 <= Datetime.minute dt <= 59)%Z ->
  exists dt', Datetime.sub_minutes dt 5 = Ok dt'.
Proof.
  intros Ho Hh Hm. unfold Datetime.sub_minutes. rewrite Ho.
  set (total := (_ - 5)%Z).
  assert (693595 <= total / 1440 <= 693596)%Z as Hd.
  { split.
    - apply Z.div_le_lower_bound; subst total; lia.
    - assert (total / 1440 < 693597)%Z; [|lia].
      apply Z.div_lt_upper_bound; subst total; lia. }
  replace ((0 <? total / 1440)%Z && (total / 1440 <=? Datetime.MAXORDINAL)%Z)
    with true.
  - eexists; reflexivity.
  - symmetry. apply andb_true_iff. rewrite Z.ltb_lt, Z.leb_le.
    unfold Datetime.MAXORDINAL. lia.
Qed.

Lemma Z_range_forallb (P : Z -> bool) (n : nat) :
  forallb P (map Z.of_nat (seq 0 n)) = true ->
  forall z, (0 <= z < Z.of_nat n)%Z -> P z = true.
Proof.
  intros H z Hz. rewrite forallb_forall in H. apply H.
  apply in_map_iff. exists (Z.to_nat z). split; [lia|].
  apply in_seq. lia.
Qed.

(** [strftime] writes every time of day in the pattern [HH:MM AM|PM]. *)
Lemma strftime_HHMM dt :
  (0 <= Datetime.hour dt <= 23)%Z -> (0 <= Datetime.minute dt <= 59)%Z ->
  matches_HHMM_pattern (Datetime.strftime dt) = true.
Proof.
  destruct dt as [o h m]. simpl. intros Hh Hm.
  change (Datetime.strftime (Datetime.mk_datetime o h m))
    with (Datetime.strftime (Datetime.mk_datetime 0 h m)).
  revert m Hm.
  assert (forall m, (0 <= m < Z.of_nat 60)%Z ->
            matches_HHMM_pattern
              (Datetime.strftime (Datetime.mk_datetime 0 h m)) = true);
    [|intros; apply H; lia].
  revert h Hh.
  assert (forall h, (0 <= h < Z.of_nat 24)%Z ->
            forallb (fun m => matches_HHMM_pattern
                                (Datetime.strftime (Datetime.mk_datetime 0 h m)))
                    (map Z.of_nat (seq 0 60)) = true) as H.
  { apply (Z_range_forallb
             (fun h => forallb
                (fun m => matches_HHMM_pattern
                            (Datetime.strftime (Datetime.mk_datetime 0 h m)))
                (map Z.of_nat (seq 0 60)))).
    vm_compute. reflexivity. }
  intros h Hh. apply Z_range_forallb, H. lia.
Qed.

Lemma fallback_HHMM : matches_HHMM_pattern fallback_time = true.
Proof. reflexivity. Qed.

(** [get_zawal_time] by the outcome of [strptime]. *)
Lemma get_zawal_time_Raise s e :
  strptime s = Raise e -> get_zawal_time s = Ok fallback_time.
Proof. intros E. unfold get_zawal_time. rewrite E. reflexivity. Qed.

Lemma get_zawal_time_Ok s dt dt' :
  strptime s = Ok dt -> Datetime.sub_minutes dt 5 = Ok dt' ->
  get_zawal_time s = Ok (Datetime.strftime dt').
Proof.
  intros E E'. unfold get_zawal_time. rewrite E. simpl. rewrite E'.
  reflexivity.
Qed.

(** [get_zawal_time] returns, and what it returns is in the pattern. *)
Lemma get_zawal_time_total s :
  exists out, get_zawal_time s = Ok out /\ matches_HHMM_pattern out = true.
Proof.
  destruct (strptime s) as [dt|e] eqn:E.
  - destruct (strptime_Ok_fields s dt E) as (Ho & Hh & Hm).
    destruct (sub_minutes_5_Ok dt Ho Hh Hm) as [dt' E'].
    exists (Datetime.strftime dt'). split.
    + eapply get_zawal_time_Ok; eassumption.
    + apply sub_minutes_fields in E' as [Hh' Hm']. apply strftime_HHMM; assumption.
  - exists fallback_time. split; [eapply get_zawal_time_Raise, E | reflexivity].
Qed.

(** ** Facts on the character classes *)

Lemma in_range_In c lo hi :
  in_range c lo hi = true ->
  In c (map N.of_nat (seq (N.to_nat lo) (N.to_nat (hi - lo + 1)))).
Proof.
  unfold in_range. rewrite andb_true_iff, !N.leb_le. intros [Hlo Hhi].
  apply in_map_iff. exists (N.to_nat c). split; [apply N2Nat.id|].
  apply in_seq. lia.
Qed.

(** Replaces a character known by a test to lie in a class by each
    character of the class in turn. *)
Ltac enum_char H :=
  first [ apply N.eqb_eq in H
        | apply in_range_In in H; vm_compute in H;
          repeat (destruct H as [H|H]; [symmetry in H|]); [..|destruct H] ];
  subst.

Ltac split_orb H :=
  repeat (apply orb_true_iff in H; destruct H as [H|H]).

Lemma space_not_decimal c : is_space c = true -> is_decimal c = false.
Proof.
  unfold is_space. intros H. split_orb H; enum_char H; reflexivity.
Qed.

Lemma decimal_not_space c : is_decimal c = true -> is_space c = false.
Proof.
  intros H. destruct (is_space c) eqn:E; [|reflexivity].
  apply space_not_decimal in E. congruence.
Qed.

Lemma space_not_letter c l :
  in_range l (ch "a") (ch "z") = true -> is_space c = true ->
  ignore_case l c = false.
Proof.
  intros Hl H. destruct (ignore_case l c) eqn:E; [|reflexivity].
  apply ignore_case_cases in E.
  unfold in_range in Hl. apply andb_true_iff in Hl as [H1 H2].
  apply N.leb_le in H1, H2. change (ch "a") with 97 in H1. change (ch "z") with 122 in H2.
  unfold is_space in H. split_orb H;
    first [ apply N.eqb_eq in H
          | unfold in_range in H; apply andb_true_iff in H as [H3 H4];
            apply N.leb_le in H3, H4 ]; lia.
Qed.

Lemma decimal_value_range c : (0 <= decimal_value c <= 9)%Z.
Proof.
  unfold decimal_value, decimal_block.
  match goal with |- context [find ?f Nd_zeros] =>
    destruct (find f Nd_zeros) as [z|] eqn:E end; [|lia].
  apply find_some in E as [_ E]. apply andb_true_iff in E as [H1 H2].
  apply N.leb_le in H1. apply N.ltb_lt in H2. lia.
Qed.

Lemma ascii_digit_decimal c :
  in_range c (ch "0") (ch "9") = true ->
  is_decimal c = true /\ decimal_value c = Z.of_N (c - ch "0").
Proof. intros H. enum_char H; split; reflexivity. Qed.

(** ** What the pattern of [strptime] finds in a string of the accepted form *)

Lemma from_p_meridiem gI gM p :
  is_meridiem_text p = true -> from_p gI gM p = [mk_found gI gM p []].
Proof.
  destruct p as [|x [|y [|]]]; try discriminate. simpl is_meridiem_text.
  intros H. apply andb_true_iff in H as [Hx Hy].
  split_orb Hx; split_orb Hy; enum_char Hx; enum_char Hy; reflexivity.
Qed.

Lemma from_p_space gI gM c r :
  is_space c = true -> from_p gI gM (c :: r) = [].
Proof.
  intros H. unfold from_p, re_p. destruct r as [|b r]; [reflexivity|].
  rewrite (space_not_letter c (ch "a") eq_refl H).
  rewrite (space_not_letter c (ch "p") eq_refl H). reflexivity.
Qed.

Lemma meridiem_not_space x p :
  is_meridiem_text (x :: p) = true -> is_space x = false.
Proof.
  destruct p as [|y [|]]; try discriminate. simpl. intros H.
  apply andb_true_iff in H as [Hx _]. split_orb Hx; enum_char Hx; reflexivity.
Qed.

Lemma from_spaces_nonspace gI gM c r :
  is_space c = false -> from_spaces gI gM (c :: r) = [].
Proof. intros H. unfold from_spaces. simpl. rewrite H. reflexivity. Qed.

Lemma from_spaces_blank gI gM w p :
  is_blank_text w = true -> is_meridiem_text p = true ->
  from_spaces gI gM (w ++ p) = [mk_found gI gM p []].
Proof.
  intros Hw Hp. induction w as [|c w IH]; [discriminate|].
  simpl in Hw. apply andb_true_iff in Hw as [Hc Hw].
  unfold from_spaces. simpl. rewrite Hc, flat_map_app. simpl.
  rewrite app_nil_r. fold (from_spaces gI gM (w ++ p)).
  destruct w as [|c' w].
  - simpl. destruct p as [|x p]; [discriminate|].
    rewrite from_spaces_nonspace by (eapply meridiem_not_space, Hp).
    simpl. apply from_p_meridiem, Hp.
  - rewrite IH by exact Hw. simpl in Hw. apply andb_true_iff in Hw as [Hc' _].
    simpl. rewrite from_p_space by exact Hc'. reflexivity.
Qed.

Lemma from_M_minute gI m w p :
  is_minute_text m = true -> is_blank_text w = true ->
  is_meridiem_text p = true ->
  from_M gI (m ++ w ++ p) = [mk_found gI m p []].
Proof.
  intros Hm Hw Hp. unfold from_M, re_M.
  destruct m as [|a [|b [|]]]; try discriminate; simpl in Hm.
  - destruct w as [|c w]; [discriminate|]. simpl.
    assert (is_space c = true) as Hc.
    { simpl in Hw. apply andb_true_iff in Hw as [Hc _]. exact Hc. }
    rewrite (space_not_decimal c Hc), andb_false_r, Hm. simpl.
    rewrite app_nil_r. apply (from_spaces_blank gI [a] (c :: w) p Hw Hp).
  - apply andb_true_iff in Hm as [Ha Hb]. simpl. rewrite Ha, Hb. simpl.
    assert (is_decimal a = true) as ->.
    { apply ascii_digit_decimal. unfold in_range in *.
      apply andb_true_iff in Ha as [H1 H2]. apply andb_true_iff. split; [exact H1|].
      apply N.leb_le in H2. apply N.leb_le.
      change (ch "5") with 53 in H2. change (ch "9") with 57. lia. }
    simpl. rewrite from_spaces_blank by assumption.
    rewrite from_spaces_nonspace by (apply decimal_not_space, Hb). reflexivity.
Qed.

Lemma from_colon_colon gI r : from_colon gI (py ":" ++ r) = from_M gI r.
Proof. unfold from_colon. simpl. apply app_nil_r. Qed.

Lemma all_matches_accepted h m w p :
  is_hour_text h = true -> is_minute_text m = true ->
  is_blank_text w = true -> is_meridiem_text p = true ->
  all_matches (h ++ py ":" ++ m ++ w ++ p) = [mk_found h m p []].
Proof.
  intros Hh Hm Hw Hp.
  assert (forall gI, from_colon gI (58 :: m ++ w ++ p) = [mk_found gI m p []])
    as HM.
  { intros gI. change (58 :: m ++ w ++ p) with (py ":" ++ (m ++ w ++ p)).
    rewrite from_colon_colon. apply from_M_minute; assumption. }
  destruct h as [|a [|b [|]]]; try discriminate; simpl in Hh.
  - enum_char Hh; unfold all_matches; simpl; rewrite HM; reflexivity.
  - apply orb_true_iff in Hh as [Hh|Hh]; apply andb_true_iff in Hh as [Ha Hb];
      enum_char Ha; enum_char Hb; unfold all_matches; simpl; rewrite HM;
      reflexivity.
Qed.

(** [strptime] on a string of the accepted form. *)
Lemma strptime_accepted h m w p :
  is_hour_text h = true -> is_minute_text m = true ->
  is_blank_text w = true -> is_meridiem_text p = true ->
  strptime (h ++ py ":" ++ m ++ w ++ p)
  = Datetime.new 1900 (hour24 (int h) (lower p)) (int m).
Proof.
  intros Hh Hm Hw Hp. unfold strptime, regex_match.
  rewrite all_matches_accepted by assumption. reflexivity.
Qed.

Lemma hour_text_range h p :
  is_hour_text h = true -> is_meridiem_text p = true ->
  (0 <= hour24 (int h) (lower p) <= 23)%Z.
Proof.
  intros Hh Hp.
  destruct p as [|x [|y [|]]]; try discriminate. simpl in Hp.
  apply andb_true_iff in Hp as [Hx Hy].
  destruct h as [|a [|b [|]]]; try discriminate; simpl in Hh.
  - split_orb Hx; split_orb Hy; enum_char Hx; enum_char Hy; enum_char Hh;
      vm_compute; split; discriminate.
  - apply orb_true_iff in Hh as [Hh|Hh]; apply andb_true_iff in Hh as [Ha Hb];
      split_orb Hx; split_orb Hy; enum_char Hx; enum_char Hy;
      enum_char Ha; enum_char Hb; vm_compute; split; discriminate.
Qed.

Lemma minute_text_range m :
  is_minute_text m = true -> (0 <= int m <= 59)%Z.
Proof.
  destruct m as [|a [|b [|]]]; try discriminate; intros H; simpl in H;
    unfold int; cbn [fold_left].
  - pose proof (decimal_value_range a). lia.
  - apply andb_true_iff in H as [Ha _]. pose proof (decimal_value_range b).
    assert (0 <= decimal_value a <= 5)%Z
      by (enum_char Ha; vm_compute; split; discriminate).
    lia.
Qed.

(** A string of the accepted form is parsed. *)
Lemma accepted_strptime_Ok s :
  accepted_form s -> exists dt, strptime s = Ok dt.
Proof.
  intros (h & m & w & p & -> & Hh & Hm & Hw & Hp).
  rewrite strptime_accepted by assumption. unfold Datetime.new.
  pose proof (hour_text_range h p Hh Hp) as H1.
  pose proof (minute_text_range m Hm) as H2.
  match goal with |- context [if ?c then _ else _] =>
    replace c with true end.
  - eexists; reflexivity.
  - symmetry. rewrite !andb_true_iff, !Z.leb_le. lia.
Qed.



(** The pattern of the specification is within the accepted form. *)
Lemma HHMM_accepted t : matches_HHMM_pattern t = true -> accepted_form t.
Proof.
  destruct t as [|h1 [|h2 [|c [|m1 [|m2 [|b [|x [|y [|]]]]]]]]];
    try discriminate.
  unfold matches_HHMM_pattern. intros H.
  repeat match type of H with
         | _ && _ = true =>
             let H' := fresh "H" in apply andb_true_iff in H as [H H']
         end.
  exists [h1; h2], [m1; m2], [b], [x; y].
  repeat match goal with
         | H : (_ =? ch _) = true |- _ => apply N.eqb_eq in H; subst
         end.
  repeat split.
  - exact H.
  - simpl. apply andb_true_iff. split; [assumption|].
    apply ascii_digit_decimal. assumption.
  - simpl. apply andb_true_iff. split; [|reflexivity].
    match goal with H : _ || _ = true |- _ =>
      apply orb_true_iff in H as [H|H]; apply N.eqb_eq in H; subst; reflexivity
    end.
Qed.



(** [strptime] parses the strings of the accepted form, and no other. *)
Lemma strptime_Ok_iff s : (exists dt, strptime s = Ok dt) <-> accepted_form s.
Proof.
  split.
  - intros [dt E]. eapply strptime_Ok_accepted, E.
  - apply accepted_strptime_Ok.
Qed.

(** ** The claims on [get_zawal_time] *)

(** C3, as the specification states it, fails: ["5:15 AM"] is not in the
    pattern [HH:MM AM|PM], and [get_zawal_time] computes a time from it. *)
Lemma get_zawal_time_fallback_counterexample :
  matches_HHMM_pattern (py "5:15 AM") = false
  /\ get_zawal_time (py "5:15 AM") = Ok (py "05:10 AM")
  /\ ~ (forall s : pystr,
          matches_HHMM_pattern s = false ->
          get_zawal_time s = Ok fallback_time).
Proof.
  split; [reflexivity|]. split; [reflexivity|].
  intros H. specialize (H (py "5:15 AM") eq_refl). vm_compute in H.
  discriminate.
Qed.

(** C3, amended.  [get_zawal_time] raises for no string, and for every
    string that is not of the accepted form (an hour from 1 to 12 on one or
    two ASCII digits, a colon, a minute from 0 to 59 on one or two decimal
    digits, one white-space character or more, [am] or [pm] in either
    case, and nothing else) it returns ["11:45 AM"]; ["not a time"] is such
    a string. *)
Theorem get_zawal_time_fallback :
  (forall s : pystr, exists out, get_zawal_time s = Ok out)
  /\ (forall s : pystr,
        ~ accepted_form s -> get_zawal_time s = Ok (py "11:45 AM"))
  /\ get_zawal_time (py "not a time") = Ok (py "11:45 AM").
Proof.
  split; [|split].
  - intros s. destruct (get_zawal_time_total s) as (out & E & _).
    exists out. exact E.
  - intros s Hn. unfold get_zawal_time.
    apply (get_zawal_time_Raise s ValueError), strptime_not_accepted, Hn.
  - reflexivity.
Qed.

Lemma get_zawal_time_fallback_witness :
  get_zawal_time (py "12:60 PM") = Ok (py "11:45 AM").
Proof.
  apply (proj1 (proj2 get_zawal_time_fallback)).
  intros Ha. destruct (accepted_strptime_Ok _ Ha) as [dt E].
  vm_compute in E. discriminate.
Defined.

(** C4.  [get_zawal_time] takes ["12:00 AM"] to ["11:55 PM"]: the time
    parsed is hour 0 of 1900-01-01, five minutes earlier is 23:55 of the
    day before, and [strftime] writes the time of day whatever the date. *)
Theorem get_zawal_time_midnight :
  get_zawal_time (py "12:00 AM") = Ok (py "11:55 PM")
  /\ strptime (py "12:00 AM") = Ok (Datetime.mk_datetime 693596 0 0)
  /\ Datetime.sub_minutes (Datetime.mk_datetime 693596 0 0) 5
     = Ok (Datetime.mk_datetime 693595 23 55)
  /\ forall d d' h m : Z,
       Datetime.strftime (Datetime.mk_datetime d h m)
       = Datetime.strftime (Datetime.mk_datetime d' h m).
Proof. repeat split. Qed.




(** C6.  [get_zawal_time] takes ["12:30 PM"], the time of dhuhr in
    Karachi, to ["12:25 PM"]. *)
Theorem get_zawal_time_half_past_noon :
  get_zawal_time (py "12:30 PM") = Ok (py "12:25 PM")
  /\ Dict.lookup karachi_times (py "ظہر") = Some (py "12:30 PM").
Proof. split; reflexivity. Qed.

(** C10.  ["5:15 AM"] is not in the pattern [HH:MM AM|PM], and
    [get_zawal_time] takes it to ["05:10 AM"], not to the fallback.  More
    generally a time of the accepted form whose hour is one digit from 1 to
    9 is parsed, and gives what its spelling with a zero before the hour
    gives.  Whatever the input, the string returned is in the pattern
    [HH:MM AM|PM], with its zeros. *)
Theorem get_zawal_time_unpadded_hour :
  (matches_HHMM_pattern (py "5:15 AM") = false
   /\ get_zawal_time (py "5:15 AM") = Ok (py "05:10 AM")
   /\ py "05:10 AM" <> fallback_time)
  /\ (forall (d : char) (m w p : pystr),
        in_range d (ch "1") (ch "9") = true ->
        is_minute_text m = true -> is_blank_text w = true ->
        is_meridiem_text p = true ->
        (exists dt, strptime ([d] ++ py ":" ++ m ++ w ++ p) = Ok dt)
        /\ get_zawal_time ([d] ++ py ":" ++ m ++ w ++ p)
           = get_zawal_time ([ch "0"; d] ++ py ":" ++ m ++ w ++ p))
  /\ (forall s : pystr,
        exists out,
          get_zawal_time s = Ok out /\ matches_HHMM_pattern out = true).
Proof.
  split; [|split].
  - split; [reflexivity|]. split; [reflexivity|]. discriminate.
  - intros d m w p Hd Hm Hw Hp.
    assert (is_hour_text [d] = true) as H1 by exact Hd.
    assert (is_hour_text [ch "0"; d] = true) as H2.
    { unfold is_hour_text. rewrite Hd. reflexivity. }
    split.
    + apply accepted_strptime_Ok. exists [d], m, w, p. auto.
    + unfold get_zawal_time.
      rewrite !strptime_accepted by assumption.
      replace (int [ch "0"; d]) with (int [d]); [reflexivity|].
      unfold int. cbn [fold_left]. change (decimal_value (ch "0")) with 0%Z.
      lia.
  - exact get_zawal_time_total.
Qed.

Lemma get_zawal_time_unpadded_hour_witness :
  get_zawal_time (py "5:15 AM") = get_zawal_time (py "05:15 AM").
Proof.
  apply (proj1 (proj2 get_zawal_time_unpadded_hour)
           (ch "5") (py "15") (py " ") (py "AM")); reflexivity.
Defined.

(** * Further properties *)

(** ** The arithmetic of [get_zawal_time] *)

Import Clock.

Lemma strftime_clock dt :
  (0 <= Datetime.minute dt <= 59)%Z ->
  Datetime.strftime dt = clock (minutes_of_day dt).
Proof.
  destruct dt as [o h m]. unfold clock, minutes_of_day. simpl. intros Hm.
  replace (h * 60 + m)%Z with (m + h * 60)%Z by lia.
  rewrite Z.div_add, Z.mod_add by lia.
  rewrite Z.div_small, Z.mod_small by lia. reflexivity.
Qed.

Lemma sub_minutes_of_day dt k dt' :
  Datetime.sub_minutes dt k = Ok dt' ->
  minutes_of_day dt' = ((minutes_of_day dt - k) mod 1440)%Z.
Proof.
  unfold Datetime.sub_minutes, minutes_of_day.
  match goal with |- context [if ?c then _ else _] => destruct c end;
    [|discriminate].
  intros H; inversion H; subst; clear H. simpl.
  set (total := (_ - k)%Z).
  replace (Datetime.hour dt * 60 + Datetime.minute dt - k)%Z
    with (total + (- Datetime.ordinal dt) * 1440)%Z by (subst total; lia).
  rewrite Z.mod_add by lia.
  pose proof (Z.div_mod (total mod 1440) 60 ltac:(lia)). lia.
Qed.

(** On a string that [strptime] parses, [get_zawal_time] returns the time
    of day five minutes earlier, counted modulo one day. *)
Lemma get_zawal_time_clock s dt :
  strptime s = Ok dt ->
  get_zawal_time s = Ok (clock ((minutes_of_day dt - 5) mod 1440)).
Proof.
  intros E. destruct (strptime_Ok_fields s dt E) as (Ho & Hh & Hm).
  destruct (sub_minutes_5_Ok dt Ho Hh Hm) as [dt' E'].
  rewrite (get_zawal_time_Ok s dt dt' E E').
  rewrite <- (sub_minutes_of_day dt 5 dt' E').
  f_equal. apply strftime_clock.
  apply sub_minutes_fields in E'. tauto.
Qed.

(** X1.  On a string that [strptime] parses, the subtraction of the
    [timedelta] does not raise, whatever the time: its result is the time
    of day five minutes earlier, counted modulo one day, and that is what
    [get_zawal_time] returns. *)
Theorem get_zawal_time_five_minutes_earlier s dt :
  strptime s = Ok dt ->
  (exists dt',
     Datetime.sub_minutes dt 5 = Ok dt'
     /\ minutes_of_day dt' = ((minutes_of_day dt - 5) mod 1440)%Z)
  /\ get_zawal_time s = Ok (clock ((minutes_of_day dt - 5) mod 1440)).
Proof.
  intros E. split; [|apply get_zawal_time_clock, E].
  destruct (strptime_Ok_fields s dt E) as (Ho & Hh & Hm).
  destruct (sub_minutes_5_Ok dt Ho Hh Hm) as [dt' E'].
  exists dt'. split; [exact E'|]. apply sub_minutes_of_day, E'.
Qed.

Lemma get_zawal_time_five_minutes_earlier_witness :
  get_zawal_time (py "12:03 AM") = Ok (py "11:58 PM").
Proof.
  apply (get_zawal_time_five_minutes_earlier
           (py "12:03 AM") (Datetime.mk_datetime 693596 0 3)).
  reflexivity.
Defined.

(** What [strftime] writes for a time of day, [strptime] reads back as
    the same hour and minute, on the date 1900-01-01. *)
Lemma strptime_strftime_time o h m :
  (0 <= h <= 23)%Z -> (0 <= m <= 59)%Z ->
  strptime (Datetime.strftime (Datetime.mk_datetime o h m))
  = Ok (Datetime.mk_datetime 693596 h m).
Proof.
  intros Hh Hm.
  change (Datetime.strftime (Datetime.mk_datetime o h m))
    with (Datetime.strftime (Datetime.mk_datetime 0 h m)).
  set (same := fun h m : Z =>
    match strptime (Datetime.strftime (Datetime.mk_datetime 0 h m)) with
    | Ok d =>
        ((Datetime.ordinal d =? 693596) && (Datetime.hour d =? h)
         && (Datetime.minute d =? m))%Z
    | Raise _ => false
    end).
  assert (same h m = true) as H.
  { apply (Z_range_forallb (same h) 60); [|lia].
    apply (Z_range_forallb
             (fun h => forallb (same h) (map Z.of_nat (seq 0 60))) 24); [|lia].
    vm_compute. reflexivity. }
  unfold same in H.
  destruct (strptime (Datetime.strftime (Datetime.mk_datetime 0 h m)))
    as [[o' h' m']|]; [|discriminate].
  simpl in H. rewrite !andb_true_iff, !Z.eqb_eq in H.
  destruct H as [[-> ->] ->]. reflexivity.
Qed.

(** X2.  What [strftime] writes for a time of day is in the pattern
    [HH:MM AM|PM], and [strptime] reads it back as the same hour and
    minute, on the date 1900-01-01 whatever the date was. *)
Theorem strptime_strftime dt :
  (0 <= Datetime.hour dt <= 23)%Z -> (0 <= Datetime.minute dt <= 59)%Z ->
  matches_HHMM_pattern (Datetime.strftime dt) = true
  /\ strptime (Datetime.strftime dt)
     = Ok (Datetime.mk_datetime 693596 (Datetime.hour dt) (Datetime.minute dt)).
Proof.
  intros Hh Hm. split; [apply strftime_HHMM; assumption|].
  destruct dt as [o h m]. apply strptime_strftime_time; assumption.
Qed.

Lemma strptime_strftime_witness :
  matches_HHMM_pattern
    (Datetime.strftime (Datetime.mk_datetime 730000 23 59)) = true
  /\ strptime (Datetime.strftime (Datetime.mk_datetime 730000 23 59))
     = Ok (Datetime.mk_datetime 693596 23 59).
Proof.
  apply (strptime_strftime (Datetime.mk_datetime 730000 23 59)); simpl; lia.
Defined.

Lemma strptime_clock n :
  (0 <= n < 1440)%Z ->
  strptime (clock n) = Ok (Datetime.mk_datetime 693596 (n / 60) (n mod 60)).
Proof.
  intros Hn. unfold clock.
  pose proof (Z.mod_pos_bound n 60 ltac:(lia)).
  assert (0 <= n / 60 < 24)%Z.
  { split; [apply Z.div_pos; lia | apply Z.div_lt_upper_bound; lia]. }
  rewrite strptime_strftime_time; [reflexivity | lia | lia].
Qed.

Lemma minutes_of_day_clock n :
  minutes_of_day (Datetime.mk_datetime 693596 (n / 60) (n mod 60)) = n.
Proof.
  unfold minutes_of_day. simpl. pose proof (Z.div_mod n 60 ltac:(lia)). lia.
Qed.

(** X3. [n + 1] calls of [get_zawal_time] in a row, each on the result of
    the one before, take a string that [strptime] parses to the time of
    day [5 * (n + 1)] minutes earlier, modulo one day: no call after the
    first can fall back. *)
Theorem repeat_zawal_parsed n s dt :
  strptime s = Ok dt ->
  repeat_zawal (S n) s
  = Ok (clock ((minutes_of_day dt - 5 * Z.of_nat (S n)) mod 1440)).
Proof.
  intros E. induction n as [|n IH].
  - cbn [repeat_zawal bind].
    rewrite (get_zawal_time_clock s dt E).
    do 2 f_equal.
  - change (repeat_zawal (S (S n)) s)
      with (out <- repeat_zawal (S n) s ;; get_zawal_time out).
    rewrite IH. cbn [bind].
    set (j := ((minutes_of_day dt - 5 * Z.of_nat (S n)) mod 1440)%Z).
    assert (0 <= j < 1440)%Z as Hj by (apply Z.mod_pos_bound; lia).
    rewrite (get_zawal_time_clock _ _ (strptime_clock j Hj)).
    rewrite minutes_of_day_clock. do 2 f_equal.
    subst j. rewrite Zminus_mod_idemp_l. f_equal. lia.
Qed.

Lemma repeat_zawal_parsed_witness :
  repeat_zawal 3 (py "12:10 AM") = Ok (py "11:55 PM").
Proof.
  apply (repeat_zawal_parsed 2 (py "12:10 AM")
           (Datetime.mk_datetime 693596 0 10)).
  reflexivity.
Defined.

Lemma Ok_inj {A : Type} (a b : A) : Ok a = Ok b -> a = b.
Proof. congruence. Qed.

Lemma clock_inj n n' :
  (0 <= n < 1440)%Z -> (0 <= n' < 1440)%Z -> clock n = clock n' -> n = n'.
Proof.
  intros Hn Hn' E. pose proof (strptime_clock n Hn) as P.
  rewrite E, (strptime_clock n' Hn') in P. inversion P as [[Hd Hm]].
  pose proof (Z.div_mod n 60 ltac:(lia)). pose proof (Z.div_mod n' 60 ltac:(lia)).
  lia.
Qed.

(** X4. The value of the [except] branch is also a computed value: the
    strings for which [get_zawal_time] returns ["11:45 AM"] are those that
    [strptime] rejects and those that it reads as 11:50 in the morning. *)
Theorem get_zawal_time_fallback_iff s :
  get_zawal_time s = Ok fallback_time
  <-> (~ accepted_form s
       \/ exists dt, strptime s = Ok dt
                     /\ Datetime.hour dt = 11%Z /\ Datetime.minute dt = 50%Z).
Proof.
  split.
  - intros G. destruct (strptime s) as [dt|e] eqn:E.
    + right. exists dt. split; [reflexivity|].
      destruct (strptime_Ok_fields s dt E) as (_ & Hh & Hm).
      rewrite (get_zawal_time_clock s dt E) in G.
      apply Ok_inj in G. rename G into G'.
      change fallback_time with (clock 705) in G'.
      apply clock_inj in G'; [|apply Z.mod_pos_bound; lia|lia].
      unfold minutes_of_day in G'.
      assert (Datetime.hour dt * 60 + Datetime.minute dt - 5 = 705)%Z as G''.
      { destruct (Z_lt_le_dec (Datetime.hour dt * 60 + Datetime.minute dt) 5).
        - replace (Datetime.hour dt * 60 + Datetime.minute dt - 5)%Z
            with ((Datetime.hour dt * 60 + Datetime.minute dt + 1435)
                  + (-1) * 1440)%Z in G' by lia.
          rewrite Z.mod_add, Z.mod_small in G' by lia. lia.
        - rewrite Z.mod_small in G' by lia. exact G'. }
      lia.
    + left. intros Ha. destruct (accepted_strptime_Ok s Ha) as [dt E'].
      congruence.
  - intros [Hn | (dt & E & Hh & Hm)].
    + unfold get_zawal_time.
      apply (get_zawal_time_Raise s ValueError), strptime_not_accepted, Hn.
    + rewrite (get_zawal_time_clock s dt E).
      unfold minutes_of_day. rewrite Hh, Hm. reflexivity.
Qed.

Lemma get_zawal_time_fallback_iff_witness :
  get_zawal_time (py "11:50 AM") = Ok (py "11:45 AM").
Proof.
  apply (proj2 (get_zawal_time_fallback_iff (py "11:50 AM"))). right.
  exists (Datetime.mk_datetime 693596 11 50). repeat split.
Defined.

(** ** Text after the time *)

Lemma from_p_meridiem_rest gI gM p r :
  is_meridiem_text p = true -> from_p gI gM (p ++ r) = [mk_found gI gM p r].
Proof.
  destruct p as [|x [|y [|]]]; try discriminate. simpl is_meridiem_text.
  intros H. apply andb_true_iff in H as [Hx Hy].
  split_orb Hx; split_orb Hy; enum_char Hx; enum_char Hy; reflexivity.
Qed.

Lemma from_spaces_blank_rest gI gM w p r :
  is_blank_text w = true -> is_meridiem_text p = true ->
  from_spaces gI gM (w ++ p ++ r) = [mk_found gI gM p r].
Proof.
  intros Hw Hp. induction w as [|c w IH]; [discriminate|].
  simpl in Hw. apply andb_true_iff in Hw as [Hc Hw].
  unfold from_spaces. simpl. rewrite Hc, flat_map_app. simpl.
  rewrite app_nil_r. fold (from_spaces gI gM (w ++ p ++ r)).
  destruct w as [|c' w].
  - destruct p as [|x p]; [discriminate|]. simpl.
    rewrite from_spaces_nonspace by (eapply meridiem_not_space, Hp).
    simpl. apply (from_p_meridiem_rest gI gM (x :: p) r Hp).
  - rewrite IH by exact Hw. simpl in Hw. apply andb_true_iff in Hw as [Hc' _].
    simpl. rewrite from_p_space by exact Hc'. reflexivity.
Qed.

Lemma from_M_minute_rest gI m w p r :
  is_minute_text m = true -> is_blank_text w = true ->
  is_meridiem_text p = true ->
  from_M gI (m ++ w ++ p ++ r) = [mk_found gI m p r].
Proof.
  intros Hm Hw Hp. unfold from_M, re_M.
  destruct m as [|a [|b [|]]]; try discriminate; simpl in Hm.
  - destruct w as [|c w]; [discriminate|]. simpl.
    assert (is_space c = true) as Hc.
    { simpl in Hw. apply andb_true_iff in Hw as [Hc _]. exact Hc. }
    rewrite (space_not_decimal c Hc), andb_false_r, Hm. simpl.
    rewrite app_nil_r. apply (from_spaces_blank_rest gI [a] (c :: w) p r Hw Hp).
  - apply andb_true_iff in Hm as [Ha Hb]. simpl. rewrite Ha, Hb. simpl.
    assert (is_decimal a = true) as ->.
    { apply ascii_digit_decimal. unfold in_range in *.
      apply andb_true_iff in Ha as [H1 H2]. apply andb_true_iff. split; [exact H1|].
      apply N.leb_le in H2. apply N.leb_le.
      change (ch "5") with 53 in H2. change (ch "9") with 57. lia. }
    simpl. rewrite from_spaces_blank_rest by assumption.
    rewrite from_spaces_nonspace by (apply decimal_not_space, Hb). reflexivity.
Qed.

(** The pattern matches a string that starts with a time in one way
    only, and leaves what follows the meridiem. *)
Lemma all_matches_accepted_rest h m w p r :
  is_hour_text h = true -> is_minute_text m = true ->
  is_blank_text w = true -> is_meridiem_text p = true ->
  all_matches (h ++ py ":" ++ m ++ w ++ p ++ r) = [mk_found h m p r].
Proof.
  intros Hh Hm Hw Hp.
  assert (forall gI,
            from_colon gI (58 :: m ++ w ++ p ++ r) = [mk_found gI m p r])
    as HM.
  { intros gI.
    change (58 :: m ++ w ++ p ++ r) with (py ":" ++ (m ++ w ++ p ++ r)).
    rewrite from_colon_colon. apply from_M_minute_rest; assumption. }
  destruct h as [|a [|b [|]]]; try discriminate; simpl in Hh.
  - enum_char Hh; unfold all_matches; simpl; rewrite HM; reflexivity.
  - apply orb_true_iff in Hh as [Hh|Hh]; apply andb_true_iff in Hh as [Ha Hb];
      enum_char Ha; enum_char Hb; unfold all_matches; simpl; rewrite HM;
      reflexivity.
Qed.

(** X5. A time followed by anything at all, be it one blank, is not
    parsed: [strptime] raises for the data that remain, and
    [get_zawal_time] returns the fallback. *)
Theorem get_zawal_time_trailing_data s c r :
  accepted_form s ->
  strptime (s ++ c :: r) = Raise ValueError
  /\ get_zawal_time (s ++ c :: r) = Ok fallback_time.
Proof.
  intros (h & m & w & p & -> & Hh & Hm & Hw & Hp).
  assert (strptime ((h ++ py ":" ++ m ++ w ++ p) ++ c :: r) = Raise ValueError)
    as E.
  { rewrite <- !app_assoc. unfold strptime, regex_match.
    rewrite (all_matches_accepted_rest h m w p (c :: r)) by assumption.
    reflexivity. }
  split; [exact E|].
  apply (get_zawal_time_Raise _ ValueError), E.
Qed.

(** X6. A string that does not start with an ASCII digit is not parsed,
    and neither is the empty string: a blank before the time, or an hour
    in the digits of another script, gives the fallback. *)
Theorem get_zawal_time_first_character s :
  match s with
  | [] => True
  | c :: _ => in_range c (ch "0") (ch "9") = false
  end ->
  get_zawal_time s = Ok fallback_time.
Proof.
  intros H. unfold get_zawal_time.
  apply (get_zawal_time_Raise s ValueError).
  assert (re_I s = []) as E.
  { destruct s as [|c s]; [reflexivity|]. unfold re_I.
    assert ((c =? ch "1") = false /\ (c =? ch "0") = false
            /\ in_range c (ch "1") (ch "9") = false) as (E1 & E0 & E9).
    { unfold in_range in *. apply andb_false_iff in H.
      change (ch "0") with 48 in *. change (ch "1") with 49.
      change (ch "9") with 57 in *.
      rewrite !N.eqb_neq, andb_false_iff, !N.leb_gt.
      rewrite !N.leb_gt in H. lia. }
    rewrite E1, E0, E9. destruct s; reflexivity. }
  unfold strptime, regex_match, all_matches. rewrite E. reflexivity.
Qed.

(** X7. The result depends on the string through the hour, the minute and
    the meridiem only: neither the zero before the hour or the minute, nor
    the script of the minute digits, nor the white space, nor the case of
    the meridiem matter. *)
Theorem get_zawal_time_by_value h m w p h' m' w' p' :
  is_hour_text h = true -> is_minute_text m = true ->
  is_blank_text w = true -> is_meridiem_text p = true ->
  is_hour_text h' = true -> is_minute_text m' = true ->
  is_blank_text w' = true -> is_meridiem_text p' = true ->
  int h = int h' -> int m = int m' -> lower p = lower p' ->
  get_zawal_time (h ++ py ":" ++ m ++ w ++ p)
  = get_zawal_time (h' ++ py ":" ++ m' ++ w' ++ p').
Proof.
  intros Hh Hm Hw Hp Hh' Hm' Hw' Hp' Eh Em Ep.
  unfold get_zawal_time.
  rewrite !strptime_accepted by assumption. rewrite Eh, Em, Ep. reflexivity.
Qed.

Lemma get_zawal_time_trailing_data_witness :
  get_zawal_time (py "12:30 PM ") = Ok (py "11:45 AM").
Proof.
  apply (get_zawal_time_trailing_data (py "12:30 PM") (ch " ") []).
  apply HHMM_accepted. reflexivity.
Defined.

Lemma get_zawal_time_first_character_witness :
  get_zawal_time (py "۱۲:۳۰ PM") = Ok (py "11:45 AM").
Proof. apply get_zawal_time_first_character. reflexivity. Defined.

Lemma get_zawal_time_by_value_witness :
  get_zawal_time (py "5:٧   pm") = get_zawal_time (py "05:07 PM").
Proof.
  apply (get_zawal_time_by_value
           (py "5") (py "٧") (py "   ") (py "pm")
           (py "05") (py "07") (py " ") (py "PM")); reflexivity.
Defined.

(** ** The helpers as [main] uses them *)

Lemma pystr_list_eqb_eq (l l' : list pystr) :
  pystr_list_eqb l l' = true -> l = l'.
Proof.
  revert l'. induction l as [|s l IH]; intros [|s' l']; simpl;
    try discriminate; [reflexivity|].
  intros H. apply andb_true_iff in H as [H1 H2].
  apply pystr_eqb_eq in H1. apply IH in H2. congruence.
Qed.

Lemma get_prayer_times_in_catalog arg :
  exists times,
    get_prayer_times arg = Ok times
    /\ In times (Dict.values prayer_times_data).
Proof.
  rewrite get_prayer_times_unfold. eexists. split; [reflexivity|].
  unfold Dict.get.
  destruct (Dict.lookup prayer_times_data (bind_city arg)) as [v|] eqn:E.
  - clear - E. revert E. generalize (bind_city arg) as k.
    induction prayer_times_data as [|[k' v'] d IH]; simpl; [discriminate|].
    intros k. destruct (PyStr.eqb k' k).
    + intros H; inversion H; auto.
    + intros H. right. eapply IH, H.
  - simpl. auto.
Qed.

(** A test that the five dictionaries of the catalog pass is passed by
    every result of [get_prayer_times]. *)
Lemma catalog_values_checked (P : PrayerTimeSet -> bool) :
  forallb P (Dict.values prayer_times_data) = true ->
  forall arg times, get_prayer_times arg = Ok times -> P times = true.
Proof.
  intros HP arg times E.
  destruct (get_prayer_times_in_catalog arg) as (times' & E' & Hin).
  rewrite E in E'. inversion E'; subst. rewrite forallb_forall in HP.
  apply HP, Hin.
Qed.

(** X8. Whatever the argument, and when it is left out, [get_prayer_times]
    returns one of the five dictionaries of the catalog, so a dictionary of
    the six prayer names in their order. *)
Theorem get_prayer_times_six_names arg :
  exists times,
    get_prayer_times arg = Ok times
    /\ In times (Dict.values prayer_times_data)
    /\ Dict.keys times = prayer_names.
Proof.
  destruct (get_prayer_times_in_catalog arg) as (times & E & Hin).
  exists times. split; [exact E|]. split; [exact Hin|].
  apply pystr_list_eqb_eq.
  apply (catalog_values_checked
           (fun t => pystr_list_eqb (Dict.keys t) prayer_names))
    with (arg := arg); [|exact E].
  vm_compute. reflexivity.
Qed.

Lemma fill_columns_combine {C : Type} (pre cols : list C) prayers :
  List.length prayers = List.length cols ->
  Main.fill_columns (pre ++ cols) (List.length pre) prayers
  = Some (combine cols prayers).
Proof.
  revert pre cols. induction prayers as [|item prayers IH];
    intros pre [|c cols] H; try discriminate; [reflexivity|].
  simpl. rewrite nth_error_app2, Nat.sub_diag by lia. simpl.
  specialize (IH (pre ++ [c]) cols). rewrite <- app_assoc, length_app in IH.
  simpl in IH. rewrite Nat.add_1_r in IH. rewrite IH by (simpl in H; lia).
  reflexivity.
Qed.

(** X9. With six columns, the loop of [main] over the prayer times never
    subscripts [cols] out of range, whatever the city chosen, and shows
    the six prayers in the six columns, one in each, in order. *)
Theorem prayer_columns_filled {C : Type} (cols : list C) (selected_city : pystr) :
  List.length cols = 6%nat ->
  exists times,
    get_prayer_times (Some selected_city) = Ok times
    /\ Main.prayer_columns cols selected_city = Ok (Some (combine cols times))
    /\ map fst (combine cols times) = cols
    /\ map snd (combine cols times) = times.
Proof.
  intros Hc.
  destruct (get_prayer_times_in_catalog (Some selected_city)) as (times & E & _).
  assert (List.length times = 6%nat) as Ht.
  { apply Nat.eqb_eq.
    apply (catalog_values_checked (fun t => Nat.eqb (List.length t) 6))
      with (arg := Some selected_city); [|exact E].
    vm_compute. reflexivity. }
  exists times. split; [exact E|]. unfold Main.prayer_columns. rewrite E.
  cbn [bind]. split; [|split].
  - f_equal. apply (fill_columns_combine [] cols times). lia.
  - clear E. revert times Ht. 
    do 7 (destruct cols as [|? cols]; try discriminate).
    intros times Ht. do 7 (destruct times as [|? times]; try discriminate).
    reflexivity.
  - clear E. revert times Ht.
    do 7 (destruct cols as [|? cols]; try discriminate).
    intros times Ht. do 7 (destruct times as [|? times]; try discriminate).
    reflexivity.
Qed.

Lemma prayer_columns_filled_witness :
  exists times,
    get_prayer_times (Some (py "Multan")) = Ok times
    /\ Main.prayer_columns [0; 1; 2; 3; 4; 5]%nat (py "Multan")
       = Ok (Some (combine [0; 1; 2; 3; 4; 5]%nat times))
    /\ map fst (combine [0; 1; 2; 3; 4; 5]%nat times) = [0; 1; 2; 3; 4; 5]%nat
    /\ map snd (combine [0; 1; 2; 3; 4; 5]%nat times) = times.
Proof.
  apply (prayer_columns_filled [0; 1; 2; 3; 4; 5]%nat (py "Multan")).
  reflexivity.
Defined.

(** X10. For every city chosen, known or not, the dhuhr time is found in
    the dictionary (the default of [.get] is not used), [strptime] parses
    it, and the zawal time shown is the time five minutes before it,
    between 12:05 PM and 12:35 PM: the fallback of [get_zawal_time] is
    not reached. *)
Theorem main_zawal_time_computed (selected_city : pystr) :
  exists times dhuhr dt,
    get_prayer_times (Some selected_city) = Ok times
    /\ Dict.lookup times (py "ظہر") = Some dhuhr
    /\ strptime dhuhr = Ok dt
    /\ Main.zawal_time selected_city = Ok (clock (minutes_of_day dt - 5))
    /\ (725 <= minutes_of_day dt - 5 <= 755)%Z.
Proof.
  destruct (get_prayer_times_in_catalog (Some selected_city)) as (times & E & _).
  set (P := fun t : PrayerTimeSet =>
    match Dict.lookup t (py "ظہر") with
    | Some dhuhr =>
        match strptime dhuhr with
        | Ok dt => ((730 <=? minutes_of_day dt) && (minutes_of_day dt <=? 760))%Z
        | Raise _ => false
        end
    | None => false
    end).
  assert (P times = true) as HP.
  { apply (catalog_values_checked P) with (arg := Some selected_city);
      [|exact E].
    vm_compute. reflexivity. }
  unfold P in HP.
  destruct (Dict.lookup times (py "ظہر")) as [dhuhr|] eqn:El; [|discriminate].
  destruct (strptime dhuhr) as [dt|] eqn:Ep; [|discriminate].
  apply andb_true_iff in HP as [H1 H2]. apply Z.leb_le in H1, H2.
  exists times, dhuhr, dt. repeat split; try assumption; try lia.
  unfold Main.zawal_time. rewrite E. cbn [bind]. unfold Dict.get. rewrite El.
  rewrite (get_zawal_time_clock dhuhr dt Ep).
  rewrite Z.mod_small by lia. reflexivity.
Qed.

(** X11. In every dictionary that [get_prayer_times] returns, the six time
    strings are in the pattern [HH:MM AM|PM], [strptime] parses them, and
    the times of day increase from the first prayer to the last. *)
Theorem prayer_times_in_order arg :
  exists times mins,
    get_prayer_times arg = Ok times
    /\ Forall (fun t => matches_HHMM_pattern t = true) (Dict.values times)
    /\ Main.minutes_of_values times = Ok mins
    /\ Main.increasing mins = true.
Proof.
  destruct (get_prayer_times_in_catalog arg) as (times & E & _).
  set (P := fun t : PrayerTimeSet =>
    forallb matches_HHMM_pattern (Dict.values t)
    && match Main.minutes_of_values t with
       | Ok mins => Main.increasing mins
       | Raise _ => false
       end).
  assert (P times = true) as HP.
  { apply (catalog_values_checked P) with (arg := arg); [|exact E].
    vm_compute. reflexivity. }
  unfold P in HP. apply andb_true_iff in HP as [H1 H2].
  destruct (Main.minutes_of_values times) as [mins|] eqn:Em; [|discriminate].
  exists times, mins. split; [exact E|]. split; [|split].
  - apply Forall_forall. rewrite forallb_forall in H1. exact H1.
  - exact Em.
  - exact H2.
Qed.

(** ** [load_islamic_images] *)

Section ImagesFacts.

Context {Image : Type} (fs : Images.filesystem Image).

Lemma setitem_lookup {V : Type} (d : Dict.dict V) k v q :
  Dict.lookup (Images.setitem d k v) q
  = if PyStr.eqb k q then Some v else Dict.lookup d q.
Proof.
  induction d as [|[k' v'] d IH]; simpl.
  - reflexivity.
  - destruct (PyStr.eqb k' k) eqn:E; simpl.
    + apply pystr_eqb_eq in E. subst k'.
      destruct (PyStr.eqb k q); reflexivity.
    + destruct (PyStr.eqb k' q) eqn:E'; [|exact IH].
      apply pystr_eqb_eq in E'. subst k'.
      assert (PyStr.eqb k q = false) as ->; [|reflexivity].
      apply pystr_eqb_neq. apply pystr_eqb_neq in E. congruence.
Qed.

Lemma setitem_length_new {V : Type} (d : Dict.dict V) k v :
  Dict.lookup d k = None ->
  List.length (Images.setitem d k v) = S (List.length d).
Proof.
  induction d as [|[k' v'] d IH]; simpl; [reflexivity|].
  destruct (PyStr.eqb k' k); [discriminate|]. simpl. auto.
Qed.

(** The loop over file names that are not yet keys of [images]. *)
Lemma load_all_spec (files : Dict.dict pystr) :
  NoDup (Dict.keys files) ->
  forall images warnings,
    (forall k, In k (Dict.keys files) -> Dict.lookup images k = None) ->
    (forall name,
       Dict.lookup (fst (Images.load_all fs files (images, warnings))) name
       = match Dict.lookup images name with
         | Some image => Some image
         | None =>
             match Dict.lookup files name with
             | Some filename => Images.loaded fs filename
             | None => None
             end
         end)
    /\ (List.length (fst (Images.load_all fs files (images, warnings)))
        + List.length (snd (Images.load_all fs files (images, warnings)))
        = List.length images + List.length warnings + List.length files)%nat.
Proof.
  induction files as [|[n f] files IH]; intros Hnd images warnings Hfresh.
  - simpl. split; [|lia]. intros name. destruct (Dict.lookup images name); reflexivity.
  - inversion Hnd as [|? ? Hn Hnd']; subst.
    assert (Dict.lookup images n = None) as Hin by (apply Hfresh; left; reflexivity).
    unfold Images.load_all. cbn [fold_left].
    fold (Images.load_all fs files (Images.load_one fs (images, warnings) (n, f))).
    unfold Images.load_one.
    assert (forall name,
              PyStr.eqb n name = true -> Dict.lookup files name = None)
      as Hlast.
    { intros name E. apply pystr_eqb_eq in E. subst.
      apply lookup_None. exact Hn. }
    assert (forall name,
              PyStr.eqb n name = true -> Dict.lookup images name = None)
      as Hfirst.
    { intros name E. apply pystr_eqb_eq in E. subst. exact Hin. }
    destruct (Images.path_exists fs (Images.os_path_join Images.image_folder f))
      eqn:Ex;
      [destruct (Images.image_open fs (Images.os_path_join Images.image_folder f))
         as [image|e] eqn:Eo|].
    + destruct (IH Hnd' (Images.setitem images n image) warnings) as [L C].
      { intros k Hk. rewrite setitem_lookup.
        destruct (PyStr.eqb n k) eqn:E.
        - apply pystr_eqb_eq in E. subst. contradiction.
        - apply Hfresh. right. exact Hk. }
      split.
      * intros name. rewrite L, setitem_lookup. cbn [Dict.lookup].
        assert (Images.loaded fs f = Some image) as El
          by (unfold Images.loaded; rewrite Ex, Eo; reflexivity).
        destruct (PyStr.eqb n name) eqn:E.
        -- rewrite (Hfirst name E), El. reflexivity.
        -- reflexivity.
      * rewrite C, setitem_length_new by exact Hin. simpl. lia.
    + destruct (IH Hnd' images
                  (warnings ++ [py "تصویر لوڈ نہیں ہو سکی " ++ f ++ py ": " ++ e]))
        as [L C].
      { intros k Hk. apply Hfresh. right. exact Hk. }
      split.
      * intros name. rewrite L. cbn [Dict.lookup].
        assert (Images.loaded fs f = None) as El
          by (unfold Images.loaded; rewrite Ex, Eo; reflexivity).
        destruct (PyStr.eqb n name) eqn:E.
        -- rewrite (Hlast name E), El. reflexivity.
        -- reflexivity.
      * rewrite C, length_app. simpl. lia.
    + destruct (IH Hnd' images
                  (warnings ++ [py "📄 فائل نہیں ملی: "
                                ++ Images.os_path_join Images.image_folder f]))
        as [L C].
      { intros k Hk. apply Hfresh. right. exact Hk. }
      split.
      * intros name. rewrite L. cbn [Dict.lookup].
        assert (Images.loaded fs f = None) as El
          by (unfold Images.loaded; rewrite Ex; reflexivity).
        destruct (PyStr.eqb n name) eqn:E.
        -- rewrite (Hlast name E), El. reflexivity.
        -- reflexivity.
      * rewrite C, length_app. simpl. lia.
Qed.

Lemma image_files_NoDup : NoDup (Dict.keys Images.image_files).
Proof. apply NoDup_pystr. vm_compute. reflexivity. Qed.

(** X12. A name is a key of the dictionary that [load_islamic_images]
    returns exactly when the folder exists, the name is one of the four of
    [image_files], and the path of its file exists and opens; the value is
    then the image opened. *)
Theorem load_islamic_images_lookup (name : pystr) :
  Dict.lookup (fst (Images.load_islamic_images fs)) name
  = if Images.path_exists fs Images.image_folder then
      match Dict.lookup Images.image_files name with
      | Some filename => Images.loaded fs filename
      | None => None
      end
    else None.
Proof.
  unfold Images.load_islamic_images.
  destruct (Images.path_exists fs Images.image_folder); simpl; [|reflexivity].
  destruct (load_all_spec Images.image_files image_files_NoDup [] [])
    as [L _]; [reflexivity|].
  apply L.
Qed.

(** X13. Each of the four images is either in the dictionary returned or
    the subject of one warning: with the folder, images and warnings are
    four together; without it, there is no image, and one warning. *)
Theorem load_islamic_images_accounted :
  if Images.path_exists fs Images.image_folder
  then (List.length (fst (Images.load_islamic_images fs))
        + List.length (snd (Images.load_islamic_images fs)) = 4)%nat
  else fst (Images.load_islamic_images fs) = []
       /\ List.length (snd (Images.load_islamic_images fs)) = 1%nat.
Proof.
  unfold Images.load_islamic_images.
  destruct (Images.path_exists fs Images.image_folder); simpl negb; cbn iota.
  - destruct (load_all_spec Images.image_files image_files_NoDup [] [])
      as [_ C]; [reflexivity|].
    exact C.
  - split; reflexivity.
Qed.

End ImagesFacts.

(** X14. With the folder and the four files in place and readable, the
    dictionary returned has the four names in the order of [image_files],
    and no warning is shown. *)
Theorem load_islamic_images_complete {Image : Type}
    (fs : Images.filesystem Image) :
  Images.path_exists fs Images.image_folder = true ->
  (forall name filename,
     In (name, filename) Images.image_files ->
     exists image, Images.loaded fs filename = Some image) ->
  Dict.keys (fst (Images.load_islamic_images fs)) = Dict.keys Images.image_files
  /\ snd (Images.load_islamic_images fs) = [].
Proof.
  intros Hf Hall.
  assert (forall filename,
            In filename (Dict.values Images.image_files) ->
            exists image,
              Images.path_exists fs
                (Images.os_path_join Images.image_folder filename) = true
              /\ Images.image_open fs
                   (Images.os_path_join Images.image_folder filename)
                 = inl image) as H.
  { intros filename Hin. apply in_map_iff in Hin as ([n f] & <- & Hin).
    destruct (Hall n f Hin) as [image E]. exists image. revert E.
    unfold Images.loaded. simpl snd.
    set (p := Images.os_path_join Images.image_folder f).
    destruct (Images.path_exists fs p); [|discriminate].
    destruct (Images.image_open fs p); [|discriminate].
    intros E; inversion E; auto. }
  destruct (H (py "101.jpg")) as (i1 & X1 & O1); [simpl; tauto|].
  destruct (H (py "102.jpg")) as (i2 & X2 & O2); [simpl; tauto|].
  destruct (H (py "103.jpg")) as (i3 & X3 & O3); [simpl; tauto|].
  destruct (H (py "104.jpg")) as (i4 & X4 & O4); [simpl; tauto|].
  assert (forall images warnings n f image,
            Images.path_exists fs
              (Images.os_path_join Images.image_folder f) = true ->
            Images.image_open fs
              (Images.os_path_join Images.image_folder f) = inl image ->
            Images.load_one fs (images, warnings) (n, f)
            = (Images.setitem images n image, warnings)) as Hone.
  { intros images warnings n f image X O. unfold Images.load_one.
    rewrite X, O. reflexivity. }
  unfold Images.load_islamic_images. rewrite Hf. simpl negb. cbn iota.
  unfold Images.load_all, Images.image_files. cbn [fold_left].
  rewrite (Hone _ _ _ _ i1 X1 O1), (Hone _ _ _ _ i2 X2 O2),
    (Hone _ _ _ _ i3 X3 O3), (Hone _ _ _ _ i4 X4 O4).
  split; reflexivity.
Qed.

Lemma load_islamic_images_complete_witness :
  Dict.keys
    (fst (Images.load_islamic_images
            (Images.mk_filesystem unit (fun _ => true) (fun _ => inl tt))))
  = Dict.keys Images.image_files
  /\ snd (Images.load_islamic_images
            (Images.mk_filesystem unit (fun _ => true) (fun _ => inl tt)))
     = [].
Proof.
  apply (load_islamic_images_complete
           (Images.mk_filesystem unit (fun _ => true) (fun _ => inl tt))).
  - reflexivity.
  - intros name filename _. exists tt. reflexivity.
Defined.

(** ** The search *)

Section SearchFacts.

Variable str_lower : pystr -> pystr.

Lemma startswith_app n b : Search.startswith n (n ++ b) = true.
Proof. induction n as [|c n IH]; simpl; [reflexivity|]. rewrite N.eqb_refl. exact IH. Qed.

(** A string is found in every string that it is a part of. *)
Lemma str_in_part a n b : Search.str_in n (a ++ n ++ b) = true.
Proof.
  induction a as [|c a IH].
  - assert (forall h, Search.startswith n h = true -> Search.str_in n h = true)
      as H by (intros [|d h] E; simpl; rewrite E; reflexivity).
    change ([] ++ n ++ b) with (n ++ b). apply H, startswith_app.
  - simpl. rewrite IH. apply orb_true_r.
Qed.

Lemma str_in_refl s : Search.str_in s s = true.
Proof.
  pose proof (str_in_part [] s []) as H. simpl in H.
  rewrite app_nil_r in H. exact H.
Qed.

Lemma matches_term_Ok term h :
  Search.searchable h = true -> exists b, Search.matches_term str_lower term h = Ok b.
Proof.
  unfold Search.searchable, Search.matches_term, Dict.getitem.
  destruct (Dict.lookup h (py "arabic")); [|discriminate].
  destruct (Dict.lookup h (py "urdu")); [|discriminate]. intros _.
  cbn [bind]. destruct (Search.str_in _ _); eexists; reflexivity.
Qed.

Lemma found_spec term records :
  forallb Search.searchable records = true ->
  exists l,
    Search.found str_lower term records = Ok l
    /\ forall h, In h l
                 <-> In h records
                     /\ Search.matches_term str_lower term h = Ok true.
Proof.
  induction records as [|r records IH]; intros H.
  - exists []. split; [reflexivity|]. simpl. tauto.
  - simpl in H. apply andb_true_iff in H as [Hr H].
    destruct (IH H) as (l & El & Hl).
    destruct (matches_term_Ok term r Hr) as [b Eb].
    cbn [Search.found]. rewrite Eb, El. cbn [bind].
    eexists. split; [reflexivity|]. intros h. destruct b; simpl; rewrite Hl.
    + split.
      * intros [<- | [Hin Hm]]; auto.
      * intros [[<- | Hin] Hm]; auto.
    + split.
      * intros [Hin Hm]; auto.
      * intros [[<- | Hin] Hm]; [congruence | auto].
Qed.

Lemma HADITHS_searchable : forallb Search.searchable Search.HADITHS = true.
Proof. vm_compute. reflexivity. Qed.

Lemma QURAN_VERSES_searchable :
  forallb Search.searchable Search.QURAN_VERSES = true.
Proof. vm_compute. reflexivity. Qed.

(** The fields that the display of a hadith and of a verse subscripts. *)
Lemma HADITHS_fields :
  forallb (Search.has_fields [py "arabic"; py "urdu"; py "reference"])
          Search.HADITHS = true.
Proof. vm_compute. reflexivity. Qed.

Lemma QURAN_VERSES_fields :
  forallb (Search.has_fields [py "arabic"; py "urdu"; py "surah"; py "verse"])
          Search.QURAN_VERSES = true.
Proof. vm_compute. reflexivity. Qed.

Lemma render_hadith_Ok h :
  Search.has_fields [py "arabic"; py "urdu"; py "reference"] h = true ->
  exists body, Search.render_hadith h = Ok body.
Proof.
  unfold Search.has_fields, Search.render_hadith, Dict.getitem.
  cbn [forallb].
  destruct (Dict.lookup h (py "arabic")); [|discriminate].
  destruct (Dict.lookup h (py "urdu")); [|discriminate].
  destruct (Dict.lookup h (py "reference")); [|discriminate].
  intros _. eexists. reflexivity.
Qed.

Lemma render_verse_Ok v :
  Search.has_fields [py "arabic"; py "urdu"; py "surah"; py "verse"] v = true ->
  exists body, Search.render_verse v = Ok body.
Proof.
  unfold Search.has_fields, Search.render_verse, Dict.getitem.
  cbn [forallb].
  destruct (Dict.lookup v (py "arabic")); [|discriminate].
  destruct (Dict.lookup v (py "urdu")); [|discriminate].
  destruct (Dict.lookup v (py "surah")); [|discriminate].
  destruct (Dict.lookup v (py "verse")); [|discriminate].
  intros _. eexists. reflexivity.
Qed.

(** A loop over records that all render makes one call for each, in
    order, and ends normally. *)
Lemma show_all_Ok render records :
  (forall h, In h records -> exists body, render h = Ok body) ->
  exists bodies,
    Search.show_all render records
    = (map (fun body => Search.Markdown body true) bodies, Ok tt)
    /\ Forall2 (fun h body => render h = Ok body) records bodies.
Proof.
  induction records as [|h records IH]; intros H.
  - exists []. split; [reflexivity | constructor].
  - destruct (H h (or_introl eq_refl)) as [body E].
    destruct IH as (bodies & Es & F); [intros h' Hin; apply H; right; exact Hin|].
    exists (body :: bodies). split; [|constructor; assumption].
    cbn [Search.show_all]. rewrite E, Es. reflexivity.
Qed.

Lemma Forall2_In_left {A B : Type} (R : A -> B -> Prop) l l' a :
  Forall2 R l l' -> In a l -> exists b, In b l' /\ R a b.
Proof.
  induction 1 as [|x y l l' Hxy F IH]; intros Hin; [destruct Hin|].
  destruct Hin as [<- | Hin].
  - exists y. split; [left; reflexivity | exact Hxy].
  - destruct (IH Hin) as (b & Hb & Rb). exists b. split; [right; exact Hb | exact Rb].
Qed.

(** The branch of the results, for records of the two lists. *)
Lemma show_results_Ok found_hadiths found_verses :
  incl found_hadiths Search.HADITHS ->
  incl found_verses Search.QURAN_VERSES ->
  exists bodies1 bodies2,
    Search.show_results found_hadiths found_verses
    = (Search.Markdown (py "### 📜 احادیث کے نتائج") false
         :: map (fun body => Search.Markdown body true) bodies1
       ++ Search.Markdown (py "### 📘 آیات کے نتائج") false
         :: map (fun body => Search.Markdown body true) bodies2,
       Ok tt)
    /\ Forall2 (fun h body => Search.render_hadith h = Ok body)
               found_hadiths bodies1
    /\ Forall2 (fun v body => Search.render_verse v = Ok body)
               found_verses bodies2.
Proof.
  intros I1 I2.
  destruct (show_all_Ok Search.render_hadith found_hadiths)
    as (bodies1 & E1 & F1).
  { intros h Hin. apply render_hadith_Ok.
    pose proof HADITHS_fields as H. rewrite forallb_forall in H.
    apply H, I1, Hin. }
  destruct (show_all_Ok Search.render_verse found_verses)
    as (bodies2 & E2 & F2).
  { intros v Hin. apply render_verse_Ok.
    pose proof QURAN_VERSES_fields as H. rewrite forallb_forall in H.
    apply H, I2, Hin. }
  exists bodies1, bodies2. split; [|split; assumption].
  unfold Search.show_results. rewrite E1, E2. reflexivity.
Qed.

(** X15.  Whatever the term typed and whatever [str.lower] does, the
    search block raises no [KeyError], neither in its two comprehensions
    nor in the loops that show the results: every record has the fields
    subscripted.  The comprehensions return records of [HADITHS] and of
    [QURAN_VERSES], and the block ends normally. *)
Theorem search_never_raises (search_term : pystr) :
  exists found_hadiths found_verses calls,
    Search.found str_lower search_term Search.HADITHS = Ok found_hadiths
    /\ Search.found str_lower search_term Search.QURAN_VERSES = Ok found_verses
    /\ incl found_hadiths Search.HADITHS
    /\ incl found_verses Search.QURAN_VERSES
    /\ Search.search str_lower search_term = (calls, Ok tt).
Proof.
  destruct (found_spec search_term _ HADITHS_searchable) as (fh & Eh & Hh).
  destruct (found_spec search_term _ QURAN_VERSES_searchable) as (fv & Ev & Hv).
  assert (incl fh Search.HADITHS) as I1 by (intros h Hin; apply Hh, Hin).
  assert (incl fv Search.QURAN_VERSES) as I2 by (intros h Hin; apply Hv, Hin).
  destruct (show_results_Ok fh fv I1 I2) as (b1 & b2 & Es & _ & _).
  assert (exists calls, Search.search str_lower search_term = (calls, Ok tt))
    as [calls Ec].
  { unfold Search.search. destruct search_term; [eexists; reflexivity|].
    rewrite Eh, Ev. destruct fh as [|h fh].
    - destruct fv as [|v fv]; [eexists; reflexivity|].
      rewrite Es. eexists; reflexivity.
    - rewrite Es. eexists; reflexivity. }
  exists fh, fv, calls. repeat split; assumption.
Qed.

(** X16.  For a term that is not empty and is the whole Arabic text of a
    hadith or of a verse, or any part of its Urdu text, the search block
    ends normally, shows no warning, and among its calls is the display of
    that record, whatever [str.lower] does. *)
Theorem search_finds_record (search_term : pystr) (h : Dict.dict pystr) :
  search_term <> [] ->
  In h Search.HADITHS \/ In h Search.QURAN_VERSES ->
  Dict.lookup h (py "arabic") = Some search_term
  \/ (exists a b, Dict.lookup h (py "urdu") = Some (a ++ search_term ++ b)) ->
  exists calls,
    Search.search str_lower search_term = (calls, Ok tt)
    /\ (forall body, ~ In (Search.Warning body) calls)
    /\ (In h Search.HADITHS ->
        exists body, Search.render_hadith h = Ok body
                     /\ In (Search.Markdown body true) calls)
    /\ (In h Search.QURAN_VERSES ->
        exists body, Search.render_verse h = Ok body
                     /\ In (Search.Markdown body true) calls).
Proof.
  intros Hne Hin Htext.
  destruct (found_spec search_term _ HADITHS_searchable) as (fh & Eh & Hh).
  destruct (found_spec search_term _ QURAN_VERSES_searchable) as (fv & Ev & Hv).
  assert (incl fh Search.HADITHS) as I1 by (intros h' Hi; apply Hh, Hi).
  assert (incl fv Search.QURAN_VERSES) as I2 by (intros h' Hi; apply Hv, Hi).
  assert (Search.searchable h = true) as Hs.
  { destruct Hin as [Hi|Hi].
    - pose proof HADITHS_searchable as H. rewrite forallb_forall in H. auto.
    - pose proof QURAN_VERSES_searchable as H. rewrite forallb_forall in H. auto. }
  assert (Search.matches_term str_lower search_term h = Ok true) as Hm.
  { revert Hs. unfold Search.searchable, Search.matches_term, Dict.getitem.
    destruct (Dict.lookup h (py "arabic")) as [arabic|]; [|discriminate].
    destruct (Dict.lookup h (py "urdu")) as [urdu|]; [|discriminate].
    intros _. cbn [bind]. destruct Htext as [E | (a & b & E)].
    - inversion E; subst. rewrite str_in_refl. reflexivity.
    - inversion E; subst. rewrite str_in_part.
      destruct (Search.str_in _ _); reflexivity. }
  assert ((In h Search.HADITHS -> In h fh)
          /\ (In h Search.QURAN_VERSES -> In h fv)) as [H1 H2].
  { split; intros Hi; [apply Hh | apply Hv]; auto. }
  destruct (show_results_Ok fh fv I1 I2) as (b1 & b2 & Es & F1 & F2).
  set (calls := Search.Markdown (py "### 📜 احادیث کے نتائج") false
                  :: map (fun body => Search.Markdown body true) b1
                ++ Search.Markdown (py "### 📘 آیات کے نتائج") false
                  :: map (fun body => Search.Markdown body true) b2) in *.
  exists calls. split; [|split; [|split]].
  - unfold Search.search. destruct search_term; [congruence|].
    rewrite Eh, Ev. destruct fh as [|h0 fh]; [|exact Es].
    destruct fv as [|v0 fv]; [|exact Es].
    destruct Hin as [Hi|Hi]; [destruct (H1 Hi) | destruct (H2 Hi)].
  - intros body Hw. subst calls. destruct Hw as [Hw|Hw]; [discriminate|].
    apply in_app_or in Hw as [Hw|[Hw|Hw]]; try discriminate;
      apply in_map_iff in Hw as (x & Hx & _); discriminate.
  - intros Hi. destruct (Forall2_In_left _ _ _ h F1 (H1 Hi)) as (body & Hb & R).
    exists body. split; [exact R|]. subst calls. right. apply in_or_app. left.
    apply in_map_iff. exists body. auto.
  - intros Hi. destruct (Forall2_In_left _ _ _ h F2 (H2 Hi)) as (body & Hb & R).
    exists body. split; [exact R|]. subst calls. right. apply in_or_app. right.
    right. apply in_map_iff. exists body. auto.
Qed.

End SearchFacts.

Lemma search_finds_record_witness :
  exists calls,
    Search.search (fun s => s) (py "صدقہ") = (calls, Ok tt)
    /\ (forall body, ~ In (Search.Warning body) calls)
    /\ (In [ (py "arabic", py "الكلمة الطيبة صدقة");
             (py "urdu", py "اچھی بات بھی صدقہ ہے");
             (py "reference", py "بخاری") ] Search.HADITHS ->
        exists body,
          Search.render_hadith
            [ (py "arabic", py "الكلمة الطيبة صدقة");
              (py "urdu", py "اچھی بات بھی صدقہ ہے");
              (py "reference", py "بخاری") ] = Ok body
          /\ In (Search.Markdown body true) calls)
    /\ (In [ (py "arabic", py "الكلمة الطيبة صدقة");
             (py "urdu", py "اچھی بات بھی صدقہ ہے");
             (py "reference", py "بخاری") ] Search.QURAN_VERSES ->
        exists body,
          Search.render_verse
            [ (py "arabic", py "الكلمة الطيبة صدقة");
              (py "urdu", py "اچھی بات بھی صدقہ ہے");
              (py "reference", py "بخاری") ] = Ok body
          /\ In (Search.Markdown body true) calls).
Proof.
  apply (search_finds_record (fun s => s) (py "صدقہ")).
  - discriminate.
  - left. simpl. do 3 right. left. reflexivity.
  - right. exists (py "اچھی بات بھی "), (py " ہے"). reflexivity.
Defined.
